(** * gistapi: a search over the public gists of a GitHub user

    A shallow embedding of [gistapi/gistapi.py] and the properties its
    specification states about it.

    The module is a Flask application with one interesting view, [search]:
    it validates the posted JSON, checks that the user exists, lists the
    user's gists page by page, fetches every gist, and collects the URLs of
    the gists one of whose files matches a regular expression.  Two helper
    functions read through an optional redis cache.

    What is modelled, and how:
    - values decoded from JSON are Python values of dynamic type; they are
      the inductive [json] below, and the Python operations the module
      applies to them ([v[key]], [len], iteration, [+=], truth value) are
      functions that raise the exception Python raises;
    - exceptions are the type [exn]; a computation is a function from the
      [world] to a [result] and the next world;
    - the world is the redis store (absent when [redis_client] is [None])
      and the list of the URLs requested from GitHub so far;
    - what is outside the module is a parameter: the regular expression
      engine, the JSON codec, [str] on a value, and GitHub itself, whose
      answer to a request may depend on the requests made before it.

    The redis store is taken to be reliable (its [get] and [set] never
    raise), [traceback.print_exc] only writes to the error stream and is
    left out, and strings are strings of bytes. *)

From stdpp Require Import gmap strings list pretty.
From Equations Require Import Equations.

Open Scope Z_scope.

(** ** Python values and exceptions *)

(** What [json.loads], [Response.json] and [request.get_json] return.
    Numbers are integers; an object keeps its members in the order of the
    text, as a Python [dict] does. *)
#[warnings="-register-all"]
Inductive json : Type :=
| JNull
| JBool (b : bool)
| JNum (n : Z)
| JStr (s : string)
| JArr (items : list json)
| JObj (members : list (string * json)).

(** The exception classes that occur: the three of the module, and those
    raised by the libraries and by the interpreter. *)
Inductive exn : Type :=
| ExternalError
| UserNotFound
| BadOrMissingParameter
| RequestException      (* requests: the request could not be carried out *)
| HTTPError             (* requests: raise_for_status *)
| JSONDecodeError       (* json: the text is not JSON *)
| ReError               (* re: the pattern does not compile *)
| KeyError
| TypeError
| AttributeError
| UnboundLocalError.

Inductive result (A : Type) : Type :=
| Return (a : A)
| Raise (e : exn).
Arguments Return {A} a.
Arguments Raise {A} e.

(** ** The world: the redis store and the requests sent to GitHub *)

Record world : Type := World {
  redis_client : option (gmap string string);
  sent : list string
}.

Definition M (A : Type) : Type := world → result A * world.

Definition ret {A} (a : A) : M A := fun w => (Return a, w).

Definition raise {A} (e : exn) : M A := fun w => (Raise e, w).

Definition bind {A B} (c : M A) (k : A → M B) : M B := fun w =>
  match c w with
  | (Return a, w') => k a w'
  | (Raise e, w') => (Raise e, w')
  end.

(** A pure step that may raise. *)
Definition lift {A} (r : result A) : M A := fun w => (r, w).

(** [try: body except: handler] with a bare [except]. *)
Definition try_except {A} (body : M A) (handler : exn → M A) : M A := fun w =>
  match body w with
  | (Return a, w') => (Return a, w')
  | (Raise e, w') => handler e w'
  end.

Notation "x <- c ;; k" := (bind c (fun x => k))
  (at level 100, c at next level, right associativity).
Notation "c ;;; k" := (bind c (fun _ => k))
  (at level 100, right associativity).

(** ** Python operations on values *)

(** [v[key]] for a string [key]. *)
Fixpoint dict_get (key : string) (d : list (string * json)) : option json :=
  match d with
  | [] => None
  | (k, v) :: d' => if String.eqb k key then Some v else dict_get key d'
  end.

Definition py_getitem (v : json) (key : string) : result json :=
  match v with
  | JObj d => match dict_get key d with Some x => Return x | None => Raise KeyError end
  | _ => Raise TypeError
  end.

(** [d[key] = x]: replaces the value of a present key, else appends. *)
Fixpoint dict_set (key : string) (x : json) (d : list (string * json))
  : list (string * json) :=
  match d with
  | [] => [(key, x)]
  | (k, v) :: d' =>
      if String.eqb k key then (k, x) :: d' else (k, v) :: dict_set key x d'
  end.

Definition chars (s : string) : list json :=
  (fun c => JStr (String c EmptyString)) <$> String.list_ascii_of_string s.

(** [len(v)]. *)
Definition py_len (v : json) : result Z :=
  match v with
  | JArr l => Return (Z.of_nat (length l))
  | JObj d => Return (Z.of_nat (length d))
  | JStr s => Return (Z.of_nat (String.length s))
  | _ => Raise TypeError
  end.

(** [for x in v]: the values the loop sees. *)
Definition py_iter (v : json) : result (list json) :=
  match v with
  | JArr l => Return l
  | JObj d => Return ((fun kv => JStr (fst kv)) <$> d)
  | JStr s => Return (chars s)
  | _ => Raise TypeError
  end.

(** [v.keys()]. *)
Definition py_keys (v : json) : result (list string) :=
  match v with
  | JObj d => Return (fst <$> d)
  | _ => Raise AttributeError
  end.

(** [a += b].  A list is extended by the values of an iterable and a
    string by a string; an object has no [+=].  The module applies [+=] to
    [all_gists] only after [len] has accepted it, so the left operand is one
    of these three; of the others, integers add and the rest is refused. *)
Definition py_iadd (a b : json) : result json :=
  match a with
  | JArr l =>
      match py_iter b with
      | Return l' => Return (JArr (l ++ l'))
      | Raise e => Raise e
      end
  | JStr s => match b with JStr s' => Return (JStr (s +:+ s')) | _ => Raise TypeError end
  | JNum n => match b with JNum n' => Return (JNum (n + n')) | _ => Raise TypeError end
  | _ => Raise TypeError
  end.

(** The truth value of [v] in an [if]. *)
Definition py_truth (v : json) : bool :=
  match v with
  | JNull => false
  | JBool b => b
  | JNum n => negb (n =? 0)
  | JStr s => negb (String.eqb s EmptyString)
  | JArr l => match l with [] => false | _ => true end
  | JObj d => match d with [] => false | _ => true end
  end.

Definition is_none (v : json) : bool :=
  match v with JNull => true | _ => false end.

(** ** What the module imports *)

(** An HTTP response as [requests] presents it. *)
Record Response : Type := mkResponse {
  status_code : Z;
  text : string
}.

(** The libraries.  [re_compile] is [re.compile]; [match_at r s i] tells
    whether the compiled pattern matches a segment of [s] that starts at
    index [i].  [json_loads] and [json_dumps] are the codec of module
    [json]; [py_str] is [str(v)], which [str.format] applies to its
    arguments and which leaves a string as it is. *)
Record platform : Type := Platform {
  regex : Type;
  re_compile : string → option regex;
  match_at : regex → string → nat → bool;
  json_loads : string → option json;
  json_dumps : json → string;
  py_str : json → string;
  py_str_str : ∀ s, py_str (JStr s) = s
}.

Definition inspect {A} (a : A) : {b : A | a = b} := exist _ a eq_refl.

Section Gistapi.

Variable P : platform.

(** GitHub: the answer to a GET of [url] after the requests [history]
    ([None] when the request cannot be carried out). *)
Variable github : list string → string → option Response.

(** *** requests *)

(** [requests.get(url)]. *)
Definition requests_get (url : string) : M Response := fun w =>
  let w' := {| redis_client := redis_client w; sent := sent w ++ [url] |} in
  match github (sent w) url with
  | Some r => (Return r, w')
  | None => (Raise RequestException, w')
  end.

(** [response.raise_for_status()]: raises for a 4xx or 5xx status. *)
Definition raise_for_status (r : Response) : result unit :=
  if (400 <=? status_code r) && (status_code r <? 600)
  then Raise HTTPError else Return tt.

(** [response.json()]. *)
Definition response_json (r : Response) : result json :=
  match json_loads P (text r) with
  | Some j => Return j
  | None => Raise JSONDecodeError
  end.

(** *** redis *)

(** The truth value of [redis_client]: whether a client was made. *)
Definition redis_enabled : M bool := fun w =>
  (Return (match redis_client w with Some _ => true | None => false end), w).

(** [redis_client.get(key)]: the value, or [None] for a key not stored. *)
Definition redis_get (key : string) : M (option string) := fun w =>
  match redis_client w with
  | Some store => (Return (store !! key), w)
  | None => (Raise AttributeError, w)
  end.

(** [redis_client.set(key, value)]. *)
Definition redis_set (key value : string) : M unit := fun w =>
  match redis_client w with
  | Some store =>
      (Return tt, {| redis_client := Some (<[key:=value]> store); sent := sent w |})
  | None => (Raise AttributeError, w)
  end.

(** *** re *)

(** [re.compile(pattern)] for a value [pattern]. *)
Definition py_re_compile (pattern : json) : result (regex P) :=
  match pattern with
  | JStr s => match re_compile P s with Some r => Return r | None => Raise ReError end
  | _ => Raise TypeError
  end.

(** [re.match(pattern, string)]: the pattern is compiled and applied at
    index 0 of the string. *)
Definition py_re_match (pattern file_text : json) : result bool :=
  match py_re_compile pattern with
  | Raise e => Raise e
  | Return r =>
      match file_text with
      | JStr s => Return (match_at P r s 0)
      | _ => Raise TypeError
      end
  end.

(** [re.search], which the module does not use: a match at some index. *)
Definition re_search (r : regex P) (s : string) : bool :=
  existsb (match_at P r s) (seq 0 (S (String.length s))).

(** *** gists_for_user *)

Definition per_page : Z := 100.

Definition gists_url (username : json) (page : Z) : string :=
  "https://api.github.com/users/" +:+ py_str P username +:+ "/gists?per_page="
    +:+ pretty per_page +:+ "&page=" +:+ pretty page.

(** The test of the [while]:
    [len(response.json()) == per_page and page <= 30]. *)
Definition loop_test (response : Response) (page : Z) : result bool :=
  match response_json response with
  | Raise e => Raise e
  | Return j =>
      match py_len j with
      | Raise e => Raise e
      | Return n => Return ((n =? per_page) && (page <=? 30))
      end
  end.

(** The body of the [while], after [page += 1]. *)
Definition next_page (username : json) (page : Z) (all_gists : json)
  : M (Response * json) :=
  response <- requests_get (gists_url username page) ;;
  lift (raise_for_status response) ;;;
  j <- lift (response_json response) ;;
  all_gists' <- lift (py_iadd all_gists j) ;;
  ret (response, all_gists').

Equations? gists_pages (username : json) (page : Z) (response : Response)
    (all_gists : json) (w : world) : result json * world
    by wf (Z.to_nat (31 - page)) lt :=
gists_pages username page response all_gists w
    with inspect (loop_test response page) := {
  | exist _ (Raise e) _ => (Raise e, w);
  | exist _ (Return false) _ => (Return all_gists, w);
  | exist _ (Return true) H
      with inspect (next_page username (page + 1) all_gists w) := {
      | exist _ (Raise e, w') _ => (Raise e, w');
      | exist _ (Return (response', all_gists'), w') _ =>
          gists_pages username (page + 1) response' all_gists' w' } }.
Proof.
  unfold loop_test in H.
  destruct (response_json response) as [j|]; [|done].
  destruct (py_len j) as [n|]; [|done].
  injection H as H. apply andb_true_iff in H as [_ H].
  apply Z.leb_le in H. lia.
Qed.

Definition gists_for_user (username : json) : M json :=
  try_except
    (response <- requests_get (gists_url username 1) ;;
     lift (raise_for_status response) ;;;
     all_gists <- lift (response_json response) ;;
     gists_pages username 1 response all_gists)
    (fun _ => raise ExternalError).

(** *** fetch_file_content and fetch_single_gist *)

Definition fetch_file_content (raw_url : string) : M string :=
  enabled <- redis_enabled ;;
  check_cache <- (if enabled then redis_get raw_url else ret None) ;;
  match check_cache with
  | Some cached => ret cached
  | None =>
      r <- requests_get raw_url ;;
      enabled <- redis_enabled ;;
      (if enabled then redis_set raw_url (text r) else ret tt) ;;;
      ret (text r)
  end.

(** [json.loads(s)]. *)
Definition py_json_loads (s : string) : result json :=
  match json_loads P s with
  | Some j => Return j
  | None => Raise JSONDecodeError
  end.

Definition fetch_single_gist (url : string) : M json :=
  enabled <- redis_enabled ;;
  check_cache <- (if enabled then redis_get url else ret None) ;;
  match check_cache with
  | Some cached => lift (py_json_loads cached)
  | None =>
      r <- requests_get url ;;
      enabled <- redis_enabled ;;
      (if enabled
       then j <- lift (response_json r) ;; redis_set url (json_dumps P j)
       else ret tt) ;;;
      lift (response_json r)
  end.

(** *** check_user_exists *)

Definition user_url (username : json) : string :=
  "https://api.github.com/users/" +:+ py_str P username.

Definition check_user_exists (username : json) : M unit :=
  r <- requests_get (user_url username) ;;
  if status_code r =? 404 then raise UserNotFound else ret tt.

(** *** search *)

(** The url of a gist and the raw url of a file are strings in every answer
    of the service.  A value of another type is refused where it is passed
    to the clients, which refuse it or apply [str] to it, depending on their
    version. *)
Definition as_url (v : json) : result string :=
  match v with
  | JStr s => Return s
  | _ => Raise TypeError
  end.

(** ['https://gist.github.com/{username}/{id}'.format(...)]. *)
Definition gist_page (username id : json) : string :=
  "https://gist.github.com/" +:+ py_str P username +:+ "/" +:+ py_str P id.

(** The text of the file [filename] of a gist: fetched from its raw url when
    the file is truncated, else its content. *)
Definition file_text_of (gist_full : json) (filename : string) : M json :=
  files <- lift (py_getitem gist_full "files") ;;
  file_object <- lift (py_getitem files filename) ;;
  truncated <- lift (py_getitem file_object "truncated") ;;
  if py_truth truncated
  then raw_url <- lift (py_getitem file_object "raw_url") ;;
       raw_url <- lift (as_url raw_url) ;;
       file_text <- fetch_file_content raw_url ;;
       ret (JStr file_text)
  else lift (py_getitem file_object "content").

(** [for filename in gist_full["files"].keys(): ...], ended by [break] at
    the first file that matches. *)
Fixpoint files_loop (username pattern gist_full : json) (filenames : list string)
    (matching : list string) : M (list string) :=
  match filenames with
  | [] => ret matching
  | filename :: filenames' =>
      file_text <- file_text_of gist_full filename ;;
      found <- lift (py_re_match pattern file_text) ;;
      if found : bool
      then id <- lift (py_getitem gist_full "id") ;;
           ret (matching ++ [gist_page username id])
      else files_loop username pattern gist_full filenames' matching
  end.

(** [for gist in gists: ...]. *)
Fixpoint gists_loop (username pattern : json) (gists : list json)
    (matching : list string) : M (list string) :=
  match gists with
  | [] => ret matching
  | gist :: gists' =>
      url <- lift (py_getitem gist "url") ;;
      url <- lift (as_url url) ;;
      gist_full <- fetch_single_gist url ;;
      files <- lift (py_getitem gist_full "files") ;;
      filenames <- lift (py_keys files) ;;
      matching' <- files_loop username pattern gist_full filenames matching ;;
      gists_loop username pattern gists' matching'
  end.

(** The [try] block up to [result = {}]: the arguments are read and checked. *)
Definition search_arguments (post_data : json) : M (json * json) :=
  u <- lift (py_getitem post_data "username") ;;
  (if is_none u then raise BadOrMissingParameter
   else p <- lift (py_getitem post_data "pattern") ;;
        if is_none p then raise BadOrMissingParameter else ret tt) ;;;
  username <- lift (py_getitem post_data "username") ;;
  pattern <- lift (py_getitem post_data "pattern") ;;
  try_except (lift (py_re_compile pattern) ;;; ret tt)
             (fun _ => raise BadOrMissingParameter) ;;;
  ret (username, pattern).

(** The [try] block after [result = {}], up to the end of the loop. *)
Definition search_matching (username pattern : json) : M (list string) :=
  check_user_exists username ;;;
  gists <- gists_for_user username ;;
  gists <- lift (py_iter gists) ;;
  gists_loop username pattern gists [].

(** The [except] clauses.  [result] is the local variable of that name:
    [None] while it is not yet bound, and then every clause raises at its
    first statement, [result['status'] = 'error']. *)
Definition error_result (result : option (list (string * json))) (code : Z)
    (message : string) : M (json * Z) :=
  match result with
  | None => raise UnboundLocalError
  | Some result =>
      let result := dict_set "status" (JStr "error") result in
      let result := dict_set "code" (JNum code) result in
      let result := dict_set "message" (JStr message) result in
      ret (JObj result, code)
  end.

Definition search_except (result : option (list (string * json))) (e : exn)
  : M (json * Z) :=
  match e with
  | UserNotFound => error_result result 400 "Invalid username"
  | BadOrMissingParameter => error_result result 400 "Bad or missing parameter"
  | ExternalError =>
      error_result result 500 "Information could not be retrieved from Github"
  | _ => error_result result 500 "Your request could not be processed"
  end.

(** The view, applied to what [request.get_json()] returned: the body it
    returns with its status, or the exception that leaves it (which Flask
    then reports as an internal server error). *)
Definition search (post_data : json) : M (json * Z) := fun w =>
  match search_arguments post_data w with
  | (Raise e, w1) => search_except None e w1
  | (Return (username, pattern), w1) =>
      let result := [] in
      match search_matching username pattern w1 with
      | (Raise e, w2) => search_except (Some result) e w2
      | (Return matching, w2) =>
          let result := dict_set "status" (JStr "success") result in
          let result := dict_set "username" username result in
          let result := dict_set "pattern" pattern result in
          let result := dict_set "matches" (JArr (JStr <$> matching)) result in
          (Return (JObj result, 200), w2)
      end
  end.

(** *** Notions used in the statements *)

(** GitHub serves [items] as page [page] of the gists of [username],
    whatever was requested before: the answer passes [raise_for_status] and
    its body decodes to the array [items]. *)
Definition serves (username : json) (page : Z) (items : list json) : Prop :=
  ∀ history, ∃ r,
    github history (gists_url username page) = Some r
    ∧ raise_for_status r = Return tt
    ∧ response_json r = Return (JArr items).

(** The urls of the pages 1 to [k]. *)
Definition page_urls (username : json) (k : nat) : list string :=
  (fun i => gists_url username (Z.of_nat (S i))) <$> seq 0 k.

(** The world after a request for each of [urls]. *)
Definition after_requests (w : world) (urls : list string) : world :=
  {| redis_client := redis_client w; sent := sent w ++ urls |}.

(** The texts of the files [filenames] of a gist, resolved one after the
    other. *)
Fixpoint texts_of (gist_full : json) (filenames : list string) : M (list json) :=
  match filenames with
  | [] => ret []
  | filename :: filenames' =>
      file_text <- file_text_of gist_full filename ;;
      file_texts <- texts_of gist_full filenames' ;;
      ret (file_text :: file_texts)
  end.

(** [tried pattern gist_full filenames w found w']: the files [filenames]
    of a gist are tried in order from the world [w].  Either the text of
    every file is resolved and none matches ([found] is [false]), or the
    files before some file are resolved and do not match, and the text of
    that file is resolved and matches ([found] is [true]); [w'] is the world
    after the last resolution.  The files after the first match are not
    mentioned: they are neither resolved nor tried. *)
Inductive tried (pattern gist_full : json)
  : list string → world → bool → world → Prop :=
| tried_none filenames file_texts w w' :
    texts_of gist_full filenames w = (Return file_texts, w') →
    Forall (fun t => py_re_match pattern t = Return false) file_texts →
    tried pattern gist_full filenames w false w'
| tried_first before filename after file_texts file_text w w1 w2 :
    texts_of gist_full before w = (Return file_texts, w1) →
    Forall (fun t => py_re_match pattern t = Return false) file_texts →
    file_text_of gist_full filename w1 = (Return file_text, w2) →
    py_re_match pattern file_text = Return true →
    tried pattern gist_full (before ++ filename :: after) w true w2.

(** [scanned username pattern gists w urls w']: going through [gists] in
    order from the world [w], each gist is fetched and its files are tried;
    a gist none of whose files matches contributes nothing, a gist with a
    matching file contributes the url of its page, and [urls] are the
    contributions in the order of [gists]. *)
Inductive scanned (username pattern : json)
  : list json → world → list string → world → Prop :=
| scanned_nil w :
    scanned username pattern [] w [] w
| scanned_skip gist gists url gist_full files filenames w w1 w2 w3 urls :
    py_getitem gist "url" = Return (JStr url) →
    fetch_single_gist url w = (Return gist_full, w1) →
    py_getitem gist_full "files" = Return files →
    py_keys files = Return filenames →
    tried pattern gist_full filenames w1 false w2 →
    scanned username pattern gists w2 urls w3 →
    scanned username pattern (gist :: gists) w urls w3
| scanned_match gist gists url gist_full files filenames id w w1 w2 w3 urls :
    py_getitem gist "url" = Return (JStr url) →
    fetch_single_gist url w = (Return gist_full, w1) →
    py_getitem gist_full "files" = Return files →
    py_keys files = Return filenames →
    tried pattern gist_full filenames w1 true w2 →
    py_getitem gist_full "id" = Return id →
    scanned username pattern gists w2 urls w3 →
    scanned username pattern (gist :: gists) w (gist_page username id :: urls) w3.

(** The body of a successful answer. *)
Definition success_body (username pattern : json) (urls : list string) : json :=
  JObj [("status", JStr "success"); ("username", username);
        ("pattern", pattern); ("matches", JArr (JStr <$> urls))].

(** The body of an answer that reports an error. *)
Definition error_body (code : Z) (message : string) : json :=
  JObj [("status", JStr "error"); ("code", JNum code); ("message", JStr message)].

End Gistapi.

Arguments files_loop P github username pattern gist_full !filenames matching w /.
Arguments gists_loop P github username pattern !gists matching w /.

(** ** The rest of the module *)

(** The view [ping]. *)
Definition ping : M string := ret "pong".

(** The world when the module has been imported.  [environ] is the
    environment of the process and [store] what the redis server holds:
    [redis_client] is a client when [os.environ.get("WITH_REDIS")] is true,
    that is, when the variable is set and is not the empty string. *)
Definition module_world (environ : gmap string string) (store : gmap string string)
  : world :=
  {| redis_client :=
       match environ !! "WITH_REDIS" with
       | Some value => if String.eqb value EmptyString then None else Some store
       | None => None
       end;
     sent := [] |}.

Section Notions.

Variable P : platform.
Variable github : list string → string → option Response.

(** GitHub does not serve page [page] of the gists of [username], whatever
    was requested before: the request cannot be carried out, or the answer
    has a status 4xx or 5xx, or its body is not JSON. *)
Definition broken (username : json) (page : Z) : Prop :=
  ∀ history,
    match github history (gists_url P username page) with
    | None => True
    | Some r =>
        raise_for_status r = Raise HTTPError
        ∨ response_json P r = Raise JSONDecodeError
    end.

(** [grows w w']: the world [w'] comes after [w].  The requests of [w] are
    the first requests of [w']; a world without a redis client stays
    without; with a client, every entry of the store is still there with
    its value, and a new entry has the url of a new request as its key. *)
Definition grows (w w' : world) : Prop :=
  ∃ urls,
    sent w' = sent w ++ urls
    ∧ match redis_client w, redis_client w' with
      | None, None => True
      | Some store, Some store' =>
          store ⊆ store'
          ∧ ∀ key, is_Some (store' !! key) → is_Some (store !! key) ∨ key ∈ urls
      | _, _ => False
      end.

(** Every run of the computation leaves a world that comes after the one
    it started from. *)
Definition Grows {A} (c : M A) : Prop := ∀ w, grows w (c w).2.

(** The exceptions the module defines. *)
Definition own (e : exn) : bool :=
  match e with
  | ExternalError | UserNotFound | BadOrMissingParameter => true
  | _ => false
  end.

(** The computation raises no exception but those of [allowed]. *)
Definition Raises {A} (allowed : exn → Prop) (c : M A) : Prop :=
  ∀ w e w', c w = (Raise e, w') → allowed e.

(** The file [filename] of a gist is there and is not flagged as
    truncated. *)
Definition inline (gist_full : json) (filename : string) : Prop :=
  ∃ files file_object truncated,
    py_getitem gist_full "files" = Return files
    ∧ py_getitem files filename = Return file_object
    ∧ py_getitem file_object "truncated" = Return truncated
    ∧ py_truth truncated = false.

(** The store of the world [w] is part of [store]. *)
Definition covered (w : world) (store : gmap string string) : Prop :=
  ∃ held, redis_client w = Some held ∧ held ⊆ store.

End Notions.

(** ** A small platform and a scripted GitHub, for closed examples *)

Module Example.

(** Patterns made of letters, digits and spaces, which match themselves;
    this engine compiles no other pattern. *)
Definition plain (c : Ascii.ascii) : bool :=
  let n := Ascii.nat_of_ascii c in
  ((48 <=? n) && (n <=? 57) || (65 <=? n) && (n <=? 90)
   || (97 <=? n) && (n <=? 122) || (n =? 32))%nat.

Definition lit_compile (s : string) : option string :=
  if forallb plain (String.list_ascii_of_string s) then Some s else None.

Fixpoint drop_chars (i : nat) (s : string) : option string :=
  match i, s with
  | O, _ => Some s
  | S i', String _ s' => drop_chars i' s'
  | S _, EmptyString => None
  end.

Definition lit_match_at (r s : string) (i : nat) : bool :=
  match drop_chars i s with
  | Some rest => String.prefix r rest
  | None => false
  end.

(** A compact JSON printer, with the separators of [json.dumps]. *)
Definition quote : string := String (Ascii.ascii_of_nat 34) EmptyString.

Fixpoint dumps (j : json) : string :=
  match j with
  | JNull => "null"
  | JBool true => "true"
  | JBool false => "false"
  | JNum n => pretty n
  | JStr s => quote +:+ s +:+ quote
  | JArr l =>
      "[" +:+ (fix items (l : list json) : string :=
                 match l with
                 | [] => EmptyString
                 | [x] => dumps x
                 | x :: l' => dumps x +:+ ", " +:+ items l'
                 end) l +:+ "]"
  | JObj d =>
      "{" +:+ (fix members (d : list (string * json)) : string :=
                 match d with
                 | [] => EmptyString
                 | [(k, x)] => quote +:+ k +:+ quote +:+ ": " +:+ dumps x
                 | (k, x) :: d' =>
                     quote +:+ k +:+ quote +:+ ": " +:+ dumps x +:+ ", " +:+ members d'
                 end) d +:+ "}"
  end.

(** The decoder of the examples knows the documents of the example at hand:
    a text decodes to the document it is the print of. *)
Definition loads (documents : list json) (s : string) : option json :=
  find (fun j => String.eqb (dumps j) s) documents.

Definition str (v : json) : string :=
  match v with
  | JStr s => s
  | JNum n => pretty n
  | JBool true => "True"
  | JBool false => "False"
  | JNull => "None"
  | _ => dumps v
  end.

Definition platform_of (documents : list json) : platform :=
  {| regex := string;
     re_compile := lit_compile;
     match_at := lit_match_at;
     json_loads := loads documents;
     json_dumps := dumps;
     py_str := str;
     py_str_str := fun s => eq_refl |}.

(** A GitHub that answers by a table, whatever was asked before; a url not
    in the table cannot be reached. *)
Fixpoint answer (table : list (string * Response)) (url : string) : option Response :=
  match table with
  | [] => None
  | (u, r) :: table' => if String.eqb u url then Some r else answer table' url
  end.

Definition scripted (table : list (string * Response)) : list string → string → option Response :=
  fun _ url => answer table url.

Definition ok (j : json) : Response := mkResponse 200 (dumps j).

Definition no_redis : world := {| redis_client := None; sent := [] |}.
Definition empty_redis : world := {| redis_client := Some ∅; sent := [] |}.

(** *** The scenarios *)

Definition octocat : json := JStr "octocat".

Definition gist_url (id : string) : string := "https://api.github.com/gists/" +:+ id.

(** An item of a listing. *)
Definition stub (id : string) : json := JObj [("url", JStr (gist_url id))].

Definition file (truncated : bool) (raw_url content : string) : json :=
  JObj [("truncated", JBool truncated); ("raw_url", JStr raw_url);
        ("content", JStr content)].

Definition raw (name : string) : string :=
  "https://gist.githubusercontent.com/octocat/raw/" +:+ name.

(** Three gists: [d1] has one file, which does not start with foo; [d2]
    has a file that starts with foo, followed by a truncated one; [d3] has
    one truncated file, whose inline content is cut before foo is
    complete. *)
Definition d1 : json :=
  JObj [("id", JStr "d1");
        ("files", JObj [("notes.txt", file false (raw "notes.txt") "a foo")])].
Definition d2 : json :=
  JObj [("id", JStr "d2");
        ("files", JObj [("a.py", file false (raw "a.py") "foo");
                        ("b.py", file true (raw "b.py") "foob")])].
Definition d3 : json :=
  JObj [("id", JStr "d3");
        ("files", JObj [("big.txt", file true (raw "big.txt") "fo")])].

Definition listed : list json := [stub "d1"; stub "d2"; stub "d3"].
Definition listing : json := JArr listed.

(** A full page of a listing: a hundred items. *)
Definition full_items : list json := (fun n : nat => stub (pretty n)) <$> seq 0 100.
Definition full_page : json := JArr full_items.

Definition profile : json := JObj [("login", JStr "octocat")].

Definition documents : list json :=
  [listing; full_page; profile; d1; d2; d3].

Definition P0 : platform := platform_of documents.

(** The user exists, has the three gists, and everything is served. *)
Definition healthy : list (string * Response) :=
  [(user_url P0 octocat, ok profile);
   (gists_url P0 octocat 1, ok listing);
   (gist_url "d1", ok d1);
   (gist_url "d2", ok d2);
   (gist_url "d3", ok d3);
   (raw "b.py", mkResponse 200 "foobar");
   (raw "big.txt", mkResponse 200 "foobar")].

(** The same, but the third gist cannot be reached. *)
Definition d3_unreachable : list (string * Response) :=
  [(user_url P0 octocat, ok profile);
   (gists_url P0 octocat 1, ok listing);
   (gist_url "d1", ok d1);
   (gist_url "d2", ok d2)].

(** The same as [healthy], but the raw content of big.txt is gone. *)
Definition raw_gone : list (string * Response) :=
  [(user_url P0 octocat, ok profile);
   (gists_url P0 octocat 1, ok listing);
   (gist_url "d1", ok d1);
   (gist_url "d2", ok d2);
   (gist_url "d3", ok d3);
   (raw "b.py", mkResponse 200 "foobar");
   (raw "big.txt", mkResponse 404 "404: Not Found")].

(** The user resource answers with a server error. *)
Definition user_500 : list (string * Response) :=
  [(user_url P0 octocat, mkResponse 500 "Server Error");
   (gists_url P0 octocat 1, ok listing)].

(** The user resource answers 404. *)
Definition user_404 : list (string * Response) :=
  [(user_url P0 octocat, mkResponse 404 "Not Found")].

(** A first page that is full and a second one with three items. *)
Definition two_pages : list (string * Response) :=
  [(gists_url P0 octocat 1, ok full_page);
   (gists_url P0 octocat 2, ok listing)].

(** Every page of the listing is full. *)
Definition all_full : list string → string → option Response :=
  fun _ url =>
    if String.prefix "https://api.github.com/users/octocat/gists?" url
    then Some (ok full_page) else None.

Definition request (username pattern : json) : json :=
  JObj [("username", username); ("pattern", pattern)].

(** The requests of a search for the three gists, in order. *)
Definition healthy_requests : list string :=
  [user_url P0 octocat; gists_url P0 octocat 1;
   gist_url "d1"; gist_url "d2"; gist_url "d3"; raw "big.txt"].

(** Everything is served as in [healthy], but the user resource answers
    with a server error. *)
Definition user_500_healthy : list (string * Response) :=
  [(user_url P0 octocat, mkResponse 500 "Server Error");
   (gists_url P0 octocat 1, ok listing);
   (gist_url "d1", ok d1);
   (gist_url "d2", ok d2);
   (gist_url "d3", ok d3);
   (raw "b.py", mkResponse 200 "foobar");
   (raw "big.txt", mkResponse 200 "foobar")].

(** *** More scenarios *)

(** A decoder that also knows the empty array, and one that knows a
    listing with an item that has no url. *)
Definition P1 : platform := platform_of (JArr [] :: documents).

Definition bad_item : json := JObj [("id", JStr "d4")].
Definition listing_bad : json := JArr [stub "d2"; bad_item; stub "d3"].
Definition P2 : platform := platform_of (listing_bad :: documents).

(** The user exists and has no gists. *)
Definition no_gists : list (string * Response) :=
  [(user_url P1 octocat, ok profile);
   (gists_url P1 octocat 1, ok (JArr []))].

(** The first page is full and the second is answered with 500. *)
Definition second_page_500 : list (string * Response) :=
  [(user_url P0 octocat, ok profile);
   (gists_url P0 octocat 1, ok full_page);
   (gists_url P0 octocat 2, mkResponse 500 "Server Error")].

(** Nothing can be reached. *)
Definition offline : list (string * Response) := [].

(** The first gist is answered with a page of HTML. *)
Definition d1_garbled : list (string * Response) :=
  [(gist_url "d1", mkResponse 200 "<html>")].

(** The second item of the listing has no url. *)
Definition with_bad_item : list (string * Response) :=
  [(user_url P2 octocat, ok profile);
   (gists_url P2 octocat 1, ok listing_bad);
   (gist_url "d2", ok d2);
   (gist_url "d3", ok d3);
   (raw "big.txt", mkResponse 200 "foobar")].

(** The environment of a process started with WITH_REDIS=0, and a store
    that holds the raw content of big.txt. *)
Definition environ_0 : gmap string string := {["WITH_REDIS" := "0"]}.
Definition holds_big : gmap string string := {[raw "big.txt" := "foobar"]}.

(** The world after the scan of the three gists from an empty store, and
    its store. *)
Definition after_scan : world :=
  (gists_loop P0 (scripted healthy) octocat (JStr "foo") listed [] empty_redis).2.
Definition scan_store : gmap string string := default ∅ (redis_client after_scan).

End Example.

(** * Properties *)

Section Properties.

Variable P : platform.
Variable github : list string → string → option Response.

Lemma gists_pages_step username page response all_gists w :
  gists_pages P github username page response all_gists w =
  match loop_test P response page with
  | Raise e => (Raise e, w)
  | Return false => (Return all_gists, w)
  | Return true =>
      match next_page P github username (page + 1) all_gists w with
      | (Raise e, w') => (Raise e, w')
      | (Return (response', all_gists'), w') =>
          gists_pages P github username (page + 1) response' all_gists' w'
      end
  end.
Proof.
  funelim (gists_pages P github username page response all_gists w);
    repeat match goal with
           | E : loop_test _ _ _ = _ |- _ => rewrite E
           | E : next_page _ _ _ _ _ _ = _ |- _ => rewrite E
           end; reflexivity.
Qed.

Lemma after_requests_nil w : after_requests w [] = w.
Proof. destruct w. unfold after_requests. simpl. by rewrite app_nil_r. Qed.

Lemma after_requests_app w us vs :
  after_requests (after_requests w us) vs = after_requests w (us ++ vs).
Proof. unfold after_requests. simpl. by rewrite app_assoc. Qed.

Lemma requests_get_answer url w r :
  github (sent w) url = Some r →
  requests_get github url w = (Return r, after_requests w [url]).
Proof. intros H. unfold requests_get. by rewrite H. Qed.

Lemma requests_get_failure url w :
  github (sent w) url = None →
  requests_get github url w = (Raise RequestException, after_requests w [url]).
Proof. intros H. unfold requests_get. by rewrite H. Qed.

Lemma next_page_served username page acc items w :
  serves P github username page items →
  ∃ r, response_json P r = Return (JArr items)
       ∧ next_page P github username page (JArr acc) w
         = (Return (r, JArr (acc ++ items)), after_requests w [gists_url P username page]).
Proof.
  intros Hs. destruct (Hs (sent w)) as (r & Hg & Hst & Hj).
  exists r. split; [done|].
  unfold next_page, bind, lift, ret.
  rewrite (requests_get_answer _ _ _ Hg), Hst, Hj. reflexivity.
Qed.

Lemma gists_pages_run username : ∀ rest page response items acc w,
  response_json P response = Return (JArr items) →
  (∀ i its, rest !! i = Some its →
     serves P github username (page + 1 + Z.of_nat i) its) →
  (∀ i its, (items :: rest) !! i = Some its →
     (S i < length (items :: rest))%nat → length its = 100%nat) →
  (∀ its, last (items :: rest) = Some its →
     length its ≠ 100%nat ∨ page + Z.of_nat (length rest) = 31) →
  page + Z.of_nat (length rest) <= 31 →
  gists_pages P github username page response (JArr acc) w =
    (Return (JArr (acc ++ concat rest)),
     after_requests w
       ((fun i => gists_url P username (page + 1 + Z.of_nat i)) <$> seq 0 (length rest))).
Proof.
  induction rest as [|its rest IH]; intros page response items acc w Hj Hserve Hfull Hlast Hcap.
  - rewrite gists_pages_step. unfold loop_test. rewrite Hj. simpl.
    rewrite after_requests_nil, app_nil_r.
    destruct (Hlast items eq_refl) as [Hne|Hp].
    + replace (Z.of_nat (length items) =? per_page) with false; [done|].
      symmetry. apply Z.eqb_neq. unfold per_page. lia.
    + simpl in Hp. replace (page <=? 30) with false; [by rewrite andb_false_r|].
      symmetry. apply Z.leb_gt. lia.
  - rewrite gists_pages_step. unfold loop_test. rewrite Hj. simpl.
    assert (length items = 100%nat) as Hlen.
    { apply (Hfull 0%nat); [done|]. simpl. lia. }
    simpl in Hcap.
    replace (Z.of_nat (length items) =? per_page) with true
      by (symmetry; apply Z.eqb_eq; unfold per_page; lia).
    replace (page <=? 30) with true by (symmetry; apply Z.leb_le; lia).
    simpl.
    destruct (next_page_served username (page + 1) acc its w) as (r & Hr & Hn).
    { specialize (Hserve 0%nat its eq_refl). by rewrite Z.add_0_r in Hserve. }
    rewrite Hn.
    rewrite (IH (page + 1) r its (acc ++ its)); try done.
    + rewrite after_requests_app. f_equal.
      * by rewrite <- app_assoc.
      * f_equal. simpl. f_equal.
        -- by rewrite Z.add_0_r.
        -- rewrite <- seq_shift, <- list_fmap_compose.
           apply list_fmap_ext. intros _ i _. simpl.
           by replace (page + 1 + 1 + Z.of_nat i) with (page + 1 + Z.of_nat (S i)) by lia.
    + intros i its' Hi. specialize (Hserve (S i) its' Hi).
      replace (page + 1 + 1 + Z.of_nat i) with (page + 1 + Z.of_nat (S i)) by lia. done.
    + intros i its' Hi Hlt. apply (Hfull (S i)); [done|]. simpl in *. lia.
    + intros its' Hl. destruct (Hlast its') as [?|?]; [|by left|right; cbn [length] in *; lia].
      by rewrite last_cons, Hl.
    + lia.
Qed.

Lemma gists_for_user_run username pages w :
  pages ≠ [] →
  (∀ i items, pages !! i = Some items →
     serves P github username (Z.of_nat (S i)) items) →
  (∀ i items, pages !! i = Some items →
     (S i < length pages)%nat → length items = 100%nat) →
  (∀ items, last pages = Some items →
     length items ≠ 100%nat ∨ length pages = 31%nat) →
  (length pages <= 31)%nat →
  gists_for_user P github username w =
    (Return (JArr (concat pages)),
     after_requests w (page_urls P username (length pages))).
Proof.
  destruct pages as [|items rest]; [done|]. intros _ Hserve Hfull Hlast Hcap.
  destruct (Hserve 0%nat items eq_refl (sent w)) as (r & Hg & Hst & Hj).
  change (Z.of_nat 1) with 1 in Hg.
  unfold gists_for_user, try_except, bind, lift.
  rewrite (requests_get_answer _ _ _ Hg), Hst, Hj.
  change (JArr items) with (JArr ([] ++ items)) at 1.
  rewrite (gists_pages_run username rest 1 r items items); try done.
  - rewrite after_requests_app. simpl. f_equal. f_equal.
    unfold page_urls. simpl. f_equal.
    rewrite <- seq_shift, <- list_fmap_compose.
    apply list_fmap_ext. intros _ i _. simpl.
    by replace (1 + 1 + Z.of_nat i) with (Z.of_nat (S (S i))) by lia.
  - intros i its Hi. specialize (Hserve (S i) its Hi).
    by replace (1 + 1 + Z.of_nat i) with (Z.of_nat (S (S i))) by lia.
  - intros its Hl. destruct (Hlast its Hl) as [?|Hk]; [by left|right].
    cbn [length] in Hk. lia.
  - cbn [length] in Hcap. lia.
Qed.

(** ** Pagination *)

Lemma length_concat_full (pages : list (list json)) (n : nat) :
  (∀ i items, pages !! i = Some items → length items = n) →
  length (concat pages) = (length pages * n)%nat.
Proof.
  induction pages as [|p ps IH]; intros Hfull; [done|].
  simpl. rewrite length_app, (Hfull 0%nat p eq_refl), IH; [done|].
  intros i items Hi. by apply (Hfull (S i)).
Qed.

Lemma page_urls_succ username k :
  page_urls P username (S k)
  = page_urls P username k ++ [gists_url P username (Z.of_nat (S k))].
Proof. unfold page_urls. by rewrite seq_S, fmap_app. Qed.

(** C8.  When the pages 1 to k-1 of a user are full (100 items), page k has
    fewer than 100 items and k is at most 30, [gists_for_user] requests
    exactly the pages 1 to k, in this order, and returns the items of all
    the pages, page after page and in the order of each page. *)
Theorem gists_for_user_paginates username (pages : list (list json)) w :
  pages ≠ [] →
  (length pages <= 30)%nat →
  (∀ i items, pages !! i = Some items →
     serves P github username (Z.of_nat (S i)) items) →
  (∀ i items, pages !! i = Some items →
     (S i < length pages)%nat → length items = 100%nat) →
  (∀ items, last pages = Some items → (length items < 100)%nat) →
  gists_for_user P github username w =
    (Return (JArr (concat pages)),
     after_requests w (page_urls P username (length pages))).
Proof.
  intros Hne Hcap Hserve Hfull Hlast.
  apply gists_for_user_run; try done.
  - intros items Hl. left. specialize (Hlast items Hl). lia.
  - lia.
Qed.

(** C1.  What [gists_for_user] does when the pages 1 to 30 are all full:
    the test [page <= 30] lets the loop run once more with [page = 30], so
    page 31 is requested as well and its items are appended; the result has
    3000 items plus those of page 31. *)
Theorem gists_for_user_fetches_page_31 username (pages : list (list json)) extra w :
  length pages = 30%nat →
  (∀ i items, pages !! i = Some items → length items = 100%nat) →
  (∀ i items, (pages ++ [extra]) !! i = Some items →
     serves P github username (Z.of_nat (S i)) items) →
  gists_for_user P github username w =
    (Return (JArr (concat pages ++ extra)),
     after_requests w (page_urls P username 30 ++ [gists_url P username 31]))
  ∧ length (concat pages ++ extra) = (3000 + length extra)%nat.
Proof.
  intros Hlen Hfull Hserve. split.
  - rewrite (gists_for_user_run username (pages ++ [extra]) w).
    + rewrite concat_app, length_app, Hlen. simpl concat. rewrite app_nil_r.
      change (30 + length [extra])%nat with 31%nat.
      by rewrite page_urls_succ.
    + by destruct pages.
    + done.
    + intros i items Hi Hlt. rewrite length_app in Hlt. simpl in Hlt.
      apply lookup_app_Some in Hi as [Hi|[Hge Hi]]; [by eapply Hfull|].
      apply lookup_lt_Some in Hi. simpl in Hi. lia.
    + intros items _. right. by rewrite length_app, Hlen.
    + rewrite length_app, Hlen. simpl. lia.
  - by rewrite length_app, (length_concat_full pages 100), Hlen.
Qed.

(** ** The cache in front of the raw content *)

Lemma fetch_file_content_hit raw_url store cached w :
  redis_client w = Some store →
  store !! raw_url = Some cached →
  fetch_file_content github raw_url w = (Return cached, w).
Proof.
  intros Hc Hs.
  unfold fetch_file_content, bind, redis_enabled, redis_get, ret.
  rewrite Hc. simpl. by rewrite Hc, Hs.
Qed.

Lemma fetch_file_content_miss raw_url store r w :
  redis_client w = Some store →
  store !! raw_url = None →
  github (sent w) raw_url = Some r →
  fetch_file_content github raw_url w =
    (Return (text r),
     {| redis_client := Some (<[raw_url:=text r]> store);
        sent := sent w ++ [raw_url] |}).
Proof.
  intros Hc Hs Hg.
  unfold fetch_file_content, bind, redis_enabled, redis_get, redis_set, ret.
  rewrite Hc. simpl. rewrite Hc, Hs, (requests_get_answer _ _ _ Hg).
  unfold after_requests. simpl. by rewrite Hc.
Qed.

Lemma fetch_file_content_no_redis raw_url w :
  redis_client w = None →
  fetch_file_content github raw_url w =
    (match github (sent w) raw_url with
     | Some r => Return (text r)
     | None => Raise RequestException
     end, after_requests w [raw_url]).
Proof.
  intros Hc.
  unfold fetch_file_content, bind, redis_enabled, ret. rewrite Hc.
  destruct (github (sent w) raw_url) as [r|] eqn:Hg.
  - rewrite (requests_get_answer _ _ _ Hg).
    unfold after_requests. simpl. by rewrite Hc.
  - by rewrite (requests_get_failure _ _ Hg).
Qed.

(** C6.  With a redis client, a raw url that is not yet stored and that
    GitHub answers is requested once: the first call stores the text of the
    answer under the url itself and returns it, and a second call returns
    the same text from the store and requests nothing.  Without a redis
    client, each of two calls requests the url. *)
Theorem fetch_file_content_twice raw_url w :
  (∀ store r,
     redis_client w = Some store →
     store !! raw_url = None →
     github (sent w) raw_url = Some r →
     ∃ w1,
       fetch_file_content github raw_url w = (Return (text r), w1)
       ∧ redis_client w1 = Some (<[raw_url:=text r]> store)
       ∧ sent w1 = sent w ++ [raw_url]
       ∧ fetch_file_content github raw_url w1 = (Return (text r), w1))
  ∧ (redis_client w = None →
     ∃ res1 res2 w1 w2,
       fetch_file_content github raw_url w = (res1, w1)
       ∧ fetch_file_content github raw_url w1 = (res2, w2)
       ∧ sent w1 = sent w ++ [raw_url]
       ∧ sent w2 = sent w ++ [raw_url; raw_url]).
Proof.
  split.
  - intros store r Hc Hs Hg. eexists. split; [by apply fetch_file_content_miss|].
    split; [done|]. split; [done|].
    eapply fetch_file_content_hit; [done|]. simpl. apply lookup_insert_eq.
  - intros Hc. do 4 eexists.
    split; [by apply fetch_file_content_no_redis|].
    split; [by apply fetch_file_content_no_redis|].
    split; [done|]. simpl. by rewrite <- app_assoc.
Qed.

(** ** A fetch that fails *)

(** Neither helper catches what [requests.get] raises. *)
Lemma fetch_single_gist_unreachable url w :
  (∀ store, redis_client w = Some store → store !! url = None) →
  github (sent w) url = None →
  fetch_single_gist P github url w
  = (Raise RequestException, after_requests w [url]).
Proof.
  intros Hmiss Hg.
  unfold fetch_single_gist, bind, redis_enabled, redis_get, ret.
  destruct (redis_client w) as [store|] eqn:Hc; simpl.
  - rewrite Hc, (Hmiss store eq_refl). by rewrite (requests_get_failure _ _ Hg).
  - by rewrite (requests_get_failure _ _ Hg).
Qed.

Lemma fetch_file_content_unreachable raw_url w :
  (∀ store, redis_client w = Some store → store !! raw_url = None) →
  github (sent w) raw_url = None →
  fetch_file_content github raw_url w
  = (Raise RequestException, after_requests w [raw_url]).
Proof.
  intros Hmiss Hg.
  unfold fetch_file_content, bind, redis_enabled, redis_get, ret.
  destruct (redis_client w) as [store|] eqn:Hc; simpl.
  - rewrite Hc, (Hmiss store eq_refl). by rewrite (requests_get_failure _ _ Hg).
  - by rewrite (requests_get_failure _ _ Hg).
Qed.

(** In [search] such an exception reaches the last [except] clause. *)
Lemma search_except_request_exception w :
  search_except (Some []) RequestException w
  = (Return (error_body 500 "Your request could not be processed", 500), w).
Proof. reflexivity. Qed.

(** ** The existence check *)

Lemma check_user_exists_404 username r w :
  github (sent w) (user_url P username) = Some r →
  status_code r = 404 →
  check_user_exists P github username w =
    (Raise UserNotFound, after_requests w [user_url P username]).
Proof.
  intros Hg Hs. unfold check_user_exists, bind.
  by rewrite (requests_get_answer _ _ _ Hg), Hs.
Qed.

Lemma check_user_exists_pass username r w :
  github (sent w) (user_url P username) = Some r →
  status_code r ≠ 404 →
  check_user_exists P github username w =
    (Return tt, after_requests w [user_url P username]).
Proof.
  intros Hg Hs. unfold check_user_exists, bind.
  rewrite (requests_get_answer _ _ _ Hg).
  by apply Z.eqb_neq in Hs as ->.
Qed.

Lemma check_user_exists_unreachable username w :
  github (sent w) (user_url P username) = None →
  check_user_exists P github username w =
    (Raise RequestException, after_requests w [user_url P username]).
Proof.
  intros Hg. unfold check_user_exists, bind.
  by rewrite (requests_get_failure _ _ Hg).
Qed.

(** ** The arguments of a search *)

(** Reading and checking the arguments leaves the world as it is. *)
Lemma search_arguments_world post_data w :
  (search_arguments P post_data w).2 = w.
Proof.
  unfold search_arguments, bind, lift, raise, ret, try_except.
  destruct (py_getitem post_data "username") as [u|]; [|done].
  destruct (is_none u); [done|].
  destruct (py_getitem post_data "pattern") as [p|]; [|done].
  destruct (is_none p); [done|]. simpl.
  by destruct (py_re_compile P p).
Qed.

Lemma search_arguments_ok post_data username pattern r w :
  py_getitem post_data "username" = Return username →
  is_none username = false →
  py_getitem post_data "pattern" = Return pattern →
  is_none pattern = false →
  py_re_compile P pattern = Return r →
  search_arguments P post_data w = (Return (username, pattern), w).
Proof.
  intros Hu Hnu Hp Hnp Hr.
  unfold search_arguments, bind, lift, raise, ret, try_except.
  by rewrite Hu, Hnu, Hp, Hnp, Hr.
Qed.

(** Accepted arguments are the members of the request, and the pattern
    compiles. *)
Lemma search_arguments_accepted post_data username pattern w w' :
  search_arguments P post_data w = (Return (username, pattern), w') →
  py_getitem post_data "username" = Return username
  ∧ py_getitem post_data "pattern" = Return pattern
  ∧ is_none username = false
  ∧ is_none pattern = false
  ∧ ∃ r, py_re_compile P pattern = Return r.
Proof.
  unfold search_arguments, bind, lift, raise, ret, try_except.
  destruct (py_getitem post_data "username") as [u|]; [|done].
  destruct (is_none u) eqn:Hu; [done|].
  destruct (py_getitem post_data "pattern") as [p|]; [|done].
  destruct (is_none p) eqn:Hp; [done|]. simpl.
  destruct (py_re_compile P p) as [r|] eqn:Hr; [|done].
  intros [= <- <- _]. repeat split; try done. by exists r.
Qed.

(** When the arguments are refused, whatever the exception, the [except]
    clause that handles it finds [result] unbound. *)
Lemma search_arguments_refused post_data e w :
  (search_arguments P post_data w).1 = Raise e →
  search P github post_data w = (Raise UnboundLocalError, w).
Proof.
  intros He. pose proof (search_arguments_world post_data w) as Hw.
  unfold search. destruct (search_arguments P post_data w) as [res w1].
  simpl in *. subst. by destruct e.
Qed.

Lemma search_after_arguments post_data username pattern w :
  search_arguments P post_data w = (Return (username, pattern), w) →
  search P github post_data w =
    match search_matching P github username pattern w with
    | (Raise e, w2) => search_except (Some []) e w2
    | (Return matching, w2) =>
        (Return (success_body username pattern matching, 200), w2)
    end.
Proof. intros Ha. unfold search. by rewrite Ha. Qed.

(** The status test of the existence check.  It raises [UserNotFound] for
    an answer with status 404, which [search] turns into the answer 400
    with the message "Invalid username"; an answer with any other status,
    2xx or not, passes the check. *)
Theorem check_user_exists_only_404 username r w :
  github (sent w) (user_url P username) = Some r →
  (status_code r = 404 →
     check_user_exists P github username w
       = (Raise UserNotFound, after_requests w [user_url P username])
     ∧ ∀ post_data pattern,
         search_arguments P post_data w = (Return (username, pattern), w) →
         search P github post_data w
           = (Return (error_body 400 "Invalid username", 400),
              after_requests w [user_url P username]))
  ∧ (status_code r ≠ 404 →
     check_user_exists P github username w
       = (Return tt, after_requests w [user_url P username])).
Proof.
  intros Hg. split.
  - intros Hs. split; [by eapply check_user_exists_404|].
    intros post_data pattern Ha.
    rewrite (search_after_arguments _ _ _ _ Ha).
    unfold search_matching, bind.
    by rewrite (check_user_exists_404 _ _ _ Hg Hs).
  - intros Hs. by eapply check_user_exists_pass.
Qed.

(** C2.  What the code does with a request whose username or pattern is
    missing or null, or whose pattern does not compile: the exception is
    raised before [result = {}], the [except] clause starts with
    [result['status'] = 'error'], and [UnboundLocalError] leaves the view;
    no answer with status 400 is returned. *)
Theorem search_bad_parameter_unbound d w :
  dict_get "username" d = None
  ∨ dict_get "username" d = Some JNull
  ∨ dict_get "pattern" d = None
  ∨ dict_get "pattern" d = Some JNull
  ∨ (∃ p, dict_get "pattern" d = Some (JStr p) ∧ re_compile P p = None) →
  search P github (JObj d) w = (Raise UnboundLocalError, w).
Proof.
  intros Hbad.
  assert (∃ e, (search_arguments P (JObj d) w).1 = Raise e) as [e He];
    [|by eapply search_arguments_refused].
  unfold search_arguments, bind, lift, raise, ret, try_except, py_getitem.
  destruct (dict_get "username" d) as [u|] eqn:Hu; [|by eexists].
  destruct (is_none u) eqn:Hnu; [by eexists|].
  destruct (dict_get "pattern" d) as [p|] eqn:Hp; [|by eexists].
  destruct (is_none p) eqn:Hnp; [by eexists|].
  simpl.
  destruct Hbad as [?|[[= ->]|[?|[[= ->]|(s & [= ->] & Hc)]]]]; try done.
  unfold py_re_compile. rewrite Hc. by eexists.
Qed.


(** ** The files of a gist *)

Lemma files_loop_cons username pattern gist_full filename filenames matching w :
  files_loop P github username pattern gist_full (filename :: filenames) matching w =
  match file_text_of github gist_full filename w with
  | (Raise e, w1) => (Raise e, w1)
  | (Return file_text, w1) =>
      match py_re_match P pattern file_text with
      | Raise e => (Raise e, w1)
      | Return true =>
          match py_getitem gist_full "id" with
          | Raise e => (Raise e, w1)
          | Return id => (Return (matching ++ [gist_page P username id]), w1)
          end
      | Return false =>
          files_loop P github username pattern gist_full filenames matching w1
      end
  end.
Proof.
  simpl. unfold bind, lift, ret.
  destruct (file_text_of github gist_full filename w) as [[file_text|e] w1]; [|done].
  destruct (py_re_match P pattern file_text) as [[|]|e]; [|done|done].
  by destruct (py_getitem gist_full "id").
Qed.

Lemma texts_of_cons gist_full filename filenames w :
  texts_of github gist_full (filename :: filenames) w =
  match file_text_of github gist_full filename w with
  | (Raise e, w1) => (Raise e, w1)
  | (Return file_text, w1) =>
      match texts_of github gist_full filenames w1 with
      | (Raise e, w2) => (Raise e, w2)
      | (Return file_texts, w2) => (Return (file_text :: file_texts), w2)
      end
  end.
Proof.
  simpl. unfold bind, ret.
  destruct (file_text_of github gist_full filename w) as [[file_text|e] w1]; [|done].
  by destruct (texts_of github gist_full filenames w1) as [[file_texts|e] w2].
Qed.

(** Files whose text does not match are passed over: the loop goes on from
    the world their resolution leaves. *)
Lemma files_loop_pass username pattern gist_full matching :
  ∀ before rest file_texts w w1,
    texts_of github gist_full before w = (Return file_texts, w1) →
    Forall (fun t => py_re_match P pattern t = Return false) file_texts →
    files_loop P github username pattern gist_full (before ++ rest) matching w
    = files_loop P github username pattern gist_full rest matching w1.
Proof.
  induction before as [|filename before IH]; intros rest file_texts w w1 Ht Hno.
  - simpl in Ht. unfold ret in Ht. by injection Ht as _ ->.
  - rewrite texts_of_cons in Ht.
    destruct (file_text_of github gist_full filename w) as [[t|e] w0] eqn:Hf; [|done].
    destruct (texts_of github gist_full before w0) as [[ts|e] w2] eqn:Hts; [|done].
    injection Ht as <- <-. apply Forall_cons in Hno as [Ht Hno].
    change ((filename :: before) ++ rest) with (filename :: (before ++ rest)).
    rewrite files_loop_cons, Hf, Ht. by eapply IH.
Qed.

(** The two ways the loop ends without an exception. *)
Lemma files_loop_none username pattern gist_full matching filenames w w' :
  tried P github pattern gist_full filenames w false w' →
  files_loop P github username pattern gist_full filenames matching w
  = (Return matching, w').
Proof.
  inversion 1 as [fns file_texts w0 w1 Ht Hno|]; subst.
  rewrite <- (app_nil_r filenames).
  by rewrite (files_loop_pass _ _ _ _ _ _ _ _ _ Ht Hno).
Qed.

Lemma files_loop_found username pattern gist_full matching filenames id w w' :
  tried P github pattern gist_full filenames w true w' →
  py_getitem gist_full "id" = Return id →
  files_loop P github username pattern gist_full filenames matching w
  = (Return (matching ++ [gist_page P username id]), w').
Proof.
  inversion 1
    as [|before filename after file_texts file_text w0 w1 w2 Ht Hno Hf Hm]; subst.
  intros Hid. rewrite (files_loop_pass _ _ _ _ _ _ _ _ _ Ht Hno).
  by rewrite files_loop_cons, Hf, Hm, Hid.
Qed.

(** And there is no other way. *)
Lemma files_loop_tried username pattern gist_full :
  ∀ filenames matching matching' w w',
    files_loop P github username pattern gist_full filenames matching w
      = (Return matching', w') →
    (tried P github pattern gist_full filenames w false w' ∧ matching' = matching)
    ∨ (tried P github pattern gist_full filenames w true w'
       ∧ ∃ id, py_getitem gist_full "id" = Return id
               ∧ matching' = matching ++ [gist_page P username id]).
Proof.
  induction filenames as [|filename filenames IH]; intros matching matching' w w' H.
  - simpl in H. unfold ret in H. injection H as <- <-.
    left. split; [|done]. by apply (tried_none _ _ _ _ [] []).
  - rewrite files_loop_cons in H.
    destruct (file_text_of github gist_full filename w) as [[t|e] w1] eqn:Hf; [|done].
    destruct (py_re_match P pattern t) as [[|]|e] eqn:Hm; [| |done].
    + destruct (py_getitem gist_full "id") as [id|e] eqn:Hid; [|done].
      injection H as <- <-. right. split; [|by exists id].
      by apply (tried_first _ _ _ _ [] filename filenames [] t w w w1).
    + apply IH in H as [[Htr ->]|[Htr Hid]]; [left|right]; (split; [|done]).
      * inversion Htr as [fns ts w0 w2 Ht Hno|]; subst.
        apply (tried_none _ _ _ _ (filename :: filenames) (t :: ts)).
        -- by rewrite texts_of_cons, Hf, Ht.
        -- by constructor.
      * inversion Htr as [|before f after ts t' w0 w2 w3 Ht Hno Hf' Hm']; subst.
        apply (tried_first _ _ _ _ (filename :: before) f after (t :: ts) t' w w2 w').
        -- by rewrite texts_of_cons, Hf, Ht.
        -- by constructor.
        -- done.
        -- done.
Qed.

(** C5.  The loop over the files of a gist tries them in the order of the
    manifest, the order of the keys of the object.  When no file has a
    matching text, nothing is appended.  At the first file whose text
    matches, the url of the gist is appended and the loop ends: the result
    and the world are those reached at that file, whatever files come after
    it, which are neither resolved nor tried.  The loop ends in no other way
    unless an exception is raised.  The test of a text is that of the
    compiled pattern at index 0 of the text. *)
Theorem files_loop_first_match username pattern gist_full matching :
  (∀ filenames w w',
     tried P github pattern gist_full filenames w false w' →
     files_loop P github username pattern gist_full filenames matching w
     = (Return matching, w'))
  ∧ (∀ filenames id w w',
       tried P github pattern gist_full filenames w true w' →
       py_getitem gist_full "id" = Return id →
       files_loop P github username pattern gist_full filenames matching w
       = (Return (matching ++ [gist_page P username id]), w'))
  ∧ (∀ filenames matching' w w',
       files_loop P github username pattern gist_full filenames matching w
         = (Return matching', w') →
       (tried P github pattern gist_full filenames w false w'
        ∧ matching' = matching)
       ∨ (tried P github pattern gist_full filenames w true w'
          ∧ ∃ id, py_getitem gist_full "id" = Return id
                  ∧ matching' = matching ++ [gist_page P username id]))
  ∧ (∀ p s found,
       py_re_match P (JStr p) (JStr s) = Return found ↔
       ∃ r, re_compile P p = Some r ∧ found = match_at P r s 0)
  ∧ (∀ members, py_keys (JObj members) = Return (members.*1)).
Proof.
  split; [|split; [|split; [|split]]].
  - intros filenames w w'. apply files_loop_none.
  - intros filenames id w w'. apply files_loop_found.
  - intros filenames matching' w w'. apply files_loop_tried.
  - intros p s found. unfold py_re_match, py_re_compile.
    destruct (re_compile P p) as [r|]; split.
    + intros [= <-]. by exists r.
    + by intros (r' & [= <-] & ->).
    + done.
    + by intros (r' & ? & _).
  - done.
Qed.

(** ** The gists of a listing *)

Lemma gists_loop_cons username pattern gist gists matching w :
  gists_loop P github username pattern (gist :: gists) matching w =
  match py_getitem gist "url" with
  | Raise e => (Raise e, w)
  | Return url =>
      match as_url url with
      | Raise e => (Raise e, w)
      | Return url =>
          match fetch_single_gist P github url w with
          | (Raise e, w1) => (Raise e, w1)
          | (Return gist_full, w1) =>
              match py_getitem gist_full "files" with
              | Raise e => (Raise e, w1)
              | Return files =>
                  match py_keys files with
                  | Raise e => (Raise e, w1)
                  | Return filenames =>
                      match files_loop P github username pattern gist_full
                              filenames matching w1 with
                      | (Raise e, w2) => (Raise e, w2)
                      | (Return matching', w2) =>
                          gists_loop P github username pattern gists matching' w2
                      end
                  end
              end
          end
      end
  end.
Proof.
  simpl. unfold bind, lift.
  destruct (py_getitem gist "url") as [url|]; [|done].
  destruct (as_url url) as [u|]; [|done].
  destruct (fetch_single_gist P github u w) as [[gist_full|e] w1]; [|done].
  destruct (py_getitem gist_full "files") as [files|]; [|done].
  by destruct (py_keys files).
Qed.

Lemma as_url_str v url : as_url v = Return url → v = JStr url.
Proof. destruct v; try done. by intros [= ->]. Qed.

(** The loop over the gists collects what [scanned] describes. *)
Lemma gists_loop_scanned username pattern :
  ∀ gists matching matching' w w',
    gists_loop P github username pattern gists matching w = (Return matching', w') →
    ∃ urls, matching' = matching ++ urls
            ∧ scanned P github username pattern gists w urls w'.
Proof.
  induction gists as [|gist gists IH]; intros matching matching' w w' H.
  - simpl in H. unfold ret in H. injection H as <- <-.
    exists []. split; [by rewrite app_nil_r|constructor].
  - rewrite gists_loop_cons in H.
    destruct (py_getitem gist "url") as [v|] eqn:Hv; [|done].
    destruct (as_url v) as [url|] eqn:Hurl; [|done].
    apply as_url_str in Hurl as ->.
    destruct (fetch_single_gist P github url w) as [[gist_full|e] w1] eqn:Hg; [|done].
    destruct (py_getitem gist_full "files") as [files|] eqn:Hfiles; [|done].
    destruct (py_keys files) as [filenames|] eqn:Hk; [|done].
    destruct (files_loop P github username pattern gist_full filenames matching w1)
      as [[m1|e] w2] eqn:Hf; [|done].
    apply IH in H as (urls & -> & Hs).
    apply files_loop_tried in Hf as [[Hf ->]|(Hf & id & Hid & ->)].
    + exists urls. split; [done|]. by eapply scanned_skip.
    + exists (gist_page P username id :: urls).
      split; [by rewrite <- app_assoc|]. by eapply scanned_match.
Qed.

Lemma scanned_gists_loop username pattern gists w urls w' :
  scanned P github username pattern gists w urls w' →
  ∀ matching,
    gists_loop P github username pattern gists matching w
    = (Return (matching ++ urls), w').
Proof.
  induction 1 as [w|gist gists url gist_full files filenames w w1 w2 w3 urls
                    Hv Hg Hfiles Hk Hf _ IH
                 |gist gists url gist_full files filenames id w w1 w2 w3 urls
                    Hv Hg Hfiles Hk Hf Hid _ IH]; intros matching.
  - simpl. unfold ret. by rewrite app_nil_r.
  - rewrite gists_loop_cons, Hv. simpl. rewrite Hg, Hfiles, Hk.
    rewrite (files_loop_none _ _ _ matching _ _ _ Hf). apply IH.
  - rewrite gists_loop_cons, Hv. simpl. rewrite Hg, Hfiles, Hk.
    rewrite (files_loop_found _ _ _ matching _ _ _ _ Hf Hid), IH.
    by rewrite <- app_assoc.
Qed.


(** ** The view *)

(** An answer with status 200 comes from a run in which every stage
    succeeded. *)
Lemma search_200 post_data body w w' :
  search P github post_data w = (Return (body, 200), w') →
  ∃ username pattern listing gists urls w1 w2,
    search_arguments P post_data w = (Return (username, pattern), w)
    ∧ check_user_exists P github username w = (Return tt, w1)
    ∧ gists_for_user P github username w1 = (Return listing, w2)
    ∧ py_iter listing = Return gists
    ∧ gists_loop P github username pattern gists [] w2 = (Return urls, w')
    ∧ body = success_body username pattern urls.
Proof.
  intros H. pose proof (search_arguments_world post_data w) as Hw.
  destruct (search_arguments P post_data w) as [[[username pattern]|e] w0] eqn:Ha;
    simpl in Hw; subst w0.
  2:{ by rewrite (search_arguments_refused post_data e w) in H by by rewrite Ha. }
  rewrite (search_after_arguments _ _ _ _ Ha) in H.
  unfold search_matching, bind, lift in H.
  destruct (check_user_exists P github username w) as [[[]|e] w1] eqn:Hc.
  2:{ by destruct e. }
  destruct (gists_for_user P github username w1) as [[listing|e] w2] eqn:Hl.
  2:{ by destruct e. }
  destruct (py_iter listing) as [gists|e] eqn:Hi.
  2:{ by destruct e. }
  destruct (gists_loop P github username pattern gists [] w2) as [[urls|e] w3] eqn:Hg.
  2:{ by destruct e. }
  injection H as <- <-. by exists username, pattern, listing, gists, urls, w1, w2.
Qed.

(** C7.  A search that answers with status 200 answers with the body
    [{status: success, username, pattern, matches}] in which username and
    pattern are those of the request and [matches] are the urls
    [https://gist.github.com/<username>/<id>] of the gists of the listing
    with a matching file, in the order of the listing: a gist without a
    matching file is passed over and the scan goes on with the next one. *)
Theorem search_success post_data body w w' :
  search P github post_data w = (Return (body, 200), w') →
  ∃ username pattern listing gists urls w1 w2,
    py_getitem post_data "username" = Return username
    ∧ py_getitem post_data "pattern" = Return pattern
    ∧ check_user_exists P github username w = (Return tt, w1)
    ∧ gists_for_user P github username w1 = (Return listing, w2)
    ∧ py_iter listing = Return gists
    ∧ scanned P github username pattern gists w2 urls w'
    ∧ body = success_body username pattern urls.
Proof.
  intros H. apply search_200 in H
    as (username & pattern & listing & gists & urls & w1 & w2
        & Ha & Hc & Hl & Hi & Hg & ->).
  apply gists_loop_scanned in Hg as (urls' & -> & Hs).
  apply search_arguments_accepted in Ha as (Hu & Hp & _).
  by exists username, pattern, listing, gists, urls', w1, w2.
Qed.


End Properties.

(** * Further properties *)

Section Further.

Variable P : platform.
Variable github : list string → string → option Response.

(** ** Worlds only grow *)

Lemma grows_refl w : grows w w.
Proof.
  exists []. split; [by rewrite app_nil_r|].
  destruct (redis_client w) as [store|]; [|done].
  split; [done|]. intros key Hk. by left.
Qed.

Lemma grows_trans w1 w2 w3 : grows w1 w2 → grows w2 w3 → grows w1 w3.
Proof.
  intros (us & Hs1 & Hr1) (vs & Hs2 & Hr2).
  exists (us ++ vs). split; [by rewrite Hs2, Hs1, app_assoc|].
  destruct (redis_client w1) as [s1|], (redis_client w2) as [s2|],
    (redis_client w3) as [s3|]; try done.
  destruct Hr1 as [Hsub1 Hnew1], Hr2 as [Hsub2 Hnew2].
  split; [by etrans|].
  intros key Hk. destruct (Hnew2 key Hk) as [Hk2|Hin].
  - destruct (Hnew1 key Hk2) as [?|Hin]; [by left|right].
    apply elem_of_app. by left.
  - right. apply elem_of_app. by right.
Qed.

Lemma grows_after_requests w urls : grows w (after_requests w urls).
Proof.
  exists urls. split; [done|]. simpl.
  destruct (redis_client w) as [store|]; [|done].
  split; [done|]. intros key Hk. by left.
Qed.

(** A value stored under a url just requested. *)
Lemma grows_stored w url value store :
  redis_client w = Some store →
  store !! url = None →
  grows w {| redis_client := Some (<[url:=value]> store); sent := sent w ++ [url] |}.
Proof.
  intros Hc Hs. exists [url]. split; [done|]. simpl. rewrite Hc.
  split; [by apply insert_subseteq|].
  intros key Hk. destruct (decide (url = key)) as [<-|Hne].
  - right. apply list_elem_of_singleton. done.
  - left. by rewrite lookup_insert_ne in Hk.
Qed.

Lemma Grows_ret {A} (a : A) : Grows (ret a).
Proof. intros w. apply grows_refl. Qed.

Lemma Grows_raise {A} (e : exn) : Grows (@raise A e).
Proof. intros w. apply grows_refl. Qed.

Lemma Grows_lift {A} (r : result A) : Grows (lift r).
Proof. intros w. apply grows_refl. Qed.

Lemma Grows_bind {A B} (c : M A) (k : A → M B) :
  Grows c → (∀ a, Grows (k a)) → Grows (bind c k).
Proof.
  intros Hc Hk w. unfold bind. specialize (Hc w).
  destruct (c w) as [[a|e] w1]; simpl in *; [|done].
  eapply grows_trans; [done|]. apply Hk.
Qed.

Lemma Grows_try_except {A} (body : M A) (handler : exn → M A) :
  Grows body → (∀ e, Grows (handler e)) → Grows (try_except body handler).
Proof.
  intros Hb Hh w. unfold try_except. specialize (Hb w).
  destruct (body w) as [[a|e] w1]; simpl in *; [done|].
  eapply grows_trans; [done|]. apply Hh.
Qed.

Lemma Grows_requests_get url : Grows (requests_get github url).
Proof.
  intros w. unfold requests_get.
  destruct (github (sent w) url); apply grows_after_requests.
Qed.

Lemma Grows_fetch_file_content raw_url : Grows (fetch_file_content github raw_url).
Proof.
  intros w. destruct (redis_client w) as [store|] eqn:Hc.
  - destruct (store !! raw_url) as [cached|] eqn:Hs.
    + rewrite (fetch_file_content_hit github raw_url store cached w Hc Hs).
      apply grows_refl.
    + destruct (github (sent w) raw_url) as [r|] eqn:Hg.
      * rewrite (fetch_file_content_miss github raw_url store r w Hc Hs Hg).
        by apply grows_stored.
      * rewrite (fetch_file_content_unreachable github raw_url w); [|congruence|done].
        apply grows_after_requests.
  - rewrite (fetch_file_content_no_redis github raw_url w Hc).
    apply grows_after_requests.
Qed.

(** ** The listing, whatever GitHub answers *)

Lemma requests_get_world url w :
  (requests_get github url w).2 = after_requests w [url].
Proof. unfold requests_get. by destruct (github (sent w) url). Qed.

Lemma next_page_world username page all_gists w :
  (next_page P github username page all_gists w).2
  = after_requests w [gists_url P username page].
Proof.
  unfold next_page, bind, lift, ret.
  pose proof (requests_get_world (gists_url P username page) w) as Hw.
  destruct (requests_get github (gists_url P username page) w) as [[r|e] w1];
    simpl in Hw; subst w1; [|done].
  destruct (raise_for_status r); [|done].
  destruct (response_json P r) as [j|]; [|done].
  by destruct (py_iadd all_gists j).
Qed.

Lemma loop_test_true response page :
  loop_test P response page = Return true → page <= 30.
Proof.
  unfold loop_test. destruct (response_json P response) as [j|]; [|done].
  destruct (py_len j) as [n|]; [|done].
  intros [= H]. apply andb_true_iff in H as [_ H]. by apply Z.leb_le.
Qed.

Lemma urls_from_cons username page (n : nat) :
  gists_url P username (page + 1)
    :: ((fun i => gists_url P username (page + 1 + 1 + Z.of_nat i)) <$> seq 0 n)
  = (fun i => gists_url P username (page + 1 + Z.of_nat i)) <$> seq 0 (S n).
Proof.
  simpl. f_equal; [by rewrite Z.add_0_r|].
  rewrite <- seq_shift, <- list_fmap_compose.
  apply list_fmap_ext. intros _ i _. simpl.
  by replace (page + 1 + 1 + Z.of_nat i) with (page + 1 + Z.of_nat (S i)) by lia.
Qed.

Lemma page_urls_from_one username (n : nat) :
  gists_url P username 1
    :: ((fun i => gists_url P username (1 + 1 + Z.of_nat i)) <$> seq 0 n)
  = page_urls P username (S n).
Proof.
  unfold page_urls. simpl. f_equal.
  rewrite <- seq_shift, <- list_fmap_compose.
  apply list_fmap_ext. intros _ i _. simpl.
  by replace (1 + 1 + Z.of_nat i) with (Z.of_nat (S (S i))) by lia.
Qed.

(** From page [page] on, the loop requests the next pages one by one and
    stops at page 31 at the latest. *)
Lemma gists_pages_bounded username :
  ∀ (n : nat) page response all_gists w,
    31 - page <= Z.of_nat n →
    page <= 31 →
    ∃ j : nat,
      page + Z.of_nat j <= 31
      ∧ (gists_pages P github username page response all_gists w).2
        = after_requests w
            ((fun i => gists_url P username (page + 1 + Z.of_nat i)) <$> seq 0 j).
Proof.
  induction n as [|n IH]; intros page response all_gists w Hn Hpage;
    rewrite gists_pages_step.
  - exists 0%nat. split; [lia|].
    destruct (loop_test P response page) as [[|]|e] eqn:Ht;
      [|by rewrite after_requests_nil..].
    apply loop_test_true in Ht. lia.
  - destruct (loop_test P response page) as [[|]|e] eqn:Ht.
    2,3: exists 0%nat; split; [lia|]; by rewrite after_requests_nil.
    apply loop_test_true in Ht.
    pose proof (next_page_world username (page + 1) all_gists w) as Hw.
    destruct (next_page P github username (page + 1) all_gists w)
      as [[[response' all_gists']|e] w1]; simpl in Hw; subst w1.
    + destruct (IH (page + 1) response' all_gists'
                  (after_requests w [gists_url P username (page + 1)]))
        as (j & Hj & Hw); [lia|lia|].
      exists (S j). split; [lia|]. rewrite Hw, after_requests_app.
      f_equal. apply urls_from_cons.
    + exists 1%nat. split; [lia|]. simpl. by rewrite Z.add_0_r.
Qed.

(** X2.  Whatever GitHub answers, [gists_for_user] sends at least one and
    at most 31 requests, for the pages 1, 2, ... of the user in this order
    and for nothing else, leaves the redis store alone, and raises no
    exception but [ExternalError]. *)
Theorem gists_for_user_bounded username w :
  ∃ k : nat,
    (1 <= k <= 31)%nat
    ∧ (gists_for_user P github username w).2
      = after_requests w (page_urls P username k)
    ∧ ∀ e, (gists_for_user P github username w).1 = Raise e → e = ExternalError.
Proof.
  unfold gists_for_user, try_except, bind, lift, raise.
  pose proof (requests_get_world (gists_url P username 1) w) as Hw.
  destruct (requests_get github (gists_url P username 1) w) as [[r|e] w1];
    simpl in Hw; subst w1.
  2:{ exists 1%nat. split; [lia|]. split; [done|]. by intros e' [= <-]. }
  destruct (raise_for_status r).
  2:{ exists 1%nat. split; [lia|]. split; [done|]. by intros e' [= <-]. }
  destruct (response_json P r) as [all_gists|].
  2:{ exists 1%nat. split; [lia|]. split; [done|]. by intros e' [= <-]. }
  destruct (gists_pages_bounded username 30 1 r all_gists
              (after_requests w [gists_url P username 1]))
    as (j & Hj & Hw); [lia|lia|].
  exists (S j). split; [lia|].
  destruct (gists_pages P github username 1 r all_gists
              (after_requests w [gists_url P username 1])) as [[res|e] w1];
    simpl in *; subst w1.
  - split; [|done]. rewrite after_requests_app. f_equal. apply page_urls_from_one.
  - split; [|by intros e' [= <-]]. rewrite after_requests_app. f_equal. apply page_urls_from_one.
Qed.

(** A page that is not served, after full pages. *)
Lemma next_page_broken username page all_gists w :
  broken P github username page →
  ∃ e, next_page P github username page all_gists w
       = (Raise e, after_requests w [gists_url P username page]).
Proof.
  intros Hb. specialize (Hb (sent w)).
  unfold next_page, bind, lift, ret.
  destruct (github (sent w) (gists_url P username page)) as [r|] eqn:Hg.
  - rewrite (requests_get_answer _ _ _ _ Hg).
    destruct Hb as [Hb|Hb].
    + rewrite Hb. by eexists.
    + destruct (raise_for_status r); [|by eexists]. rewrite Hb. by eexists.
  - rewrite (requests_get_failure _ _ _ Hg). by eexists.
Qed.

Lemma gists_pages_broken username :
  ∀ rest page response items acc w,
    response_json P response = Return (JArr items) →
    (∀ i its, (items :: rest) !! i = Some its → length its = 100%nat) →
    (∀ i its, rest !! i = Some its →
       serves P github username (page + 1 + Z.of_nat i) its) →
    broken P github username (page + 1 + Z.of_nat (length rest)) →
    page + Z.of_nat (length rest) <= 30 →
    ∃ e,
      gists_pages P github username page response (JArr acc) w =
        (Raise e,
         after_requests w
           ((fun i => gists_url P username (page + 1 + Z.of_nat i))
              <$> seq 0 (S (length rest)))).
Proof.
  induction rest as [|its rest IH];
    intros page response items acc w Hj Hfull Hserve Hbroken Hcap;
    rewrite gists_pages_step; unfold loop_test; rewrite Hj; simpl;
    rewrite (Hfull 0%nat items eq_refl);
    cbn [length] in Hcap;
    replace (page <=? 30) with true by (symmetry; apply Z.leb_le; lia);
    change (Z.of_nat 100 =? per_page) with true; simpl.
  - rewrite Z.add_0_r in *.
    destruct (next_page_broken username (page + 1) (JArr acc) w Hbroken) as [e He].
    rewrite He. by exists e.
  - destruct (next_page_served P github username (page + 1) acc its w) as (r & Hr & Hn).
    { specialize (Hserve 0%nat its eq_refl). by rewrite Z.add_0_r in Hserve. }
    rewrite Hn.
    destruct (IH (page + 1) r its (acc ++ its)
                (after_requests w [gists_url P username (page + 1)])) as [e He].
    + done.
    + intros i its' Hi. by apply (Hfull (S i)).
    + intros i its' Hi. specialize (Hserve (S i) its' Hi).
      by replace (page + 1 + 1 + Z.of_nat i) with (page + 1 + Z.of_nat (S i)) by lia.
    + cbn [length] in Hbroken.
      by replace (page + 1 + 1 + Z.of_nat (length rest))
        with (page + 1 + Z.of_nat (S (length rest))) by lia.
    + lia.
    + exists e. rewrite He, after_requests_app. f_equal. f_equal.
      cbn [length]. apply urls_from_cons.
Qed.

Lemma gists_for_user_broken username pages w :
  (length pages <= 30)%nat →
  (∀ i items, pages !! i = Some items →
     serves P github username (Z.of_nat (S i)) items ∧ length items = 100%nat) →
  broken P github username (Z.of_nat (S (length pages))) →
  gists_for_user P github username w =
    (Raise ExternalError,
     after_requests w (page_urls P username (S (length pages)))).
Proof.
  intros Hcap Hpages Hbroken.
  destruct pages as [|items rest].
  - unfold gists_for_user, try_except, bind, lift, raise.
    specialize (Hbroken (sent w)). cbn [length] in Hbroken.
    change (Z.of_nat 1) with 1 in Hbroken.
    destruct (github (sent w) (gists_url P username 1)) as [r|] eqn:Hg.
    + rewrite (requests_get_answer _ _ _ _ Hg).
      destruct Hbroken as [Hb|Hb]; [by rewrite Hb|].
      destruct (raise_for_status r); [|done]. by rewrite Hb.
    + by rewrite (requests_get_failure _ _ _ Hg).
  - destruct (Hpages 0%nat items eq_refl) as [Hs _].
    destruct (Hs (sent w)) as (r & Hg & Hst & Hj).
    change (Z.of_nat 1) with 1 in Hg.
    unfold gists_for_user, try_except, bind, lift, raise.
    rewrite (requests_get_answer _ _ _ _ Hg), Hst, Hj.
    destruct (gists_pages_broken username rest 1 r items items
                (after_requests w [gists_url P username 1])) as [e He].
    + done.
    + intros i its Hi. by apply (Hpages i its).
    + intros i its Hi. destruct (Hpages (S i) its Hi) as [Hs' _].
      by replace (1 + 1 + Z.of_nat i) with (Z.of_nat (S (S i))) by lia.
    + cbn [length] in Hbroken.
      by replace (1 + 1 + Z.of_nat (length rest))
        with (Z.of_nat (S (S (length rest)))) by lia.
    + cbn [length] in Hcap. lia.
    + rewrite He, after_requests_app. f_equal. f_equal.
      cbn [length]. apply page_urls_from_one.
Qed.

(** X1.  When the pages 1 to k of a user are full and page k+1 is not
    served (the request cannot be carried out, or it is answered with a
    status 4xx or 5xx, or with a body that is not JSON), [gists_for_user]
    raises [ExternalError] after the requests for the pages 1 to k+1: the
    items of the k full pages are not returned.  With k = 0 this is a
    failure of the first page. *)
Theorem gists_for_user_page_failure username (pages : list (list json)) w :
  (length pages <= 30)%nat →
  (∀ i items, pages !! i = Some items →
     serves P github username (Z.of_nat (S i)) items ∧ length items = 100%nat) →
  broken P github username (Z.of_nat (S (length pages))) →
  gists_for_user P github username w =
    (Raise ExternalError,
     after_requests w (page_urls P username (S (length pages)))).
Proof. apply gists_for_user_broken. Qed.

(** ** The cache in front of the gists *)

Lemma fetch_single_gist_hit url store cached w :
  redis_client w = Some store →
  store !! url = Some cached →
  fetch_single_gist P github url w = (py_json_loads P cached, w).
Proof.
  intros Hc Hs.
  unfold fetch_single_gist, bind, redis_enabled, redis_get, ret, lift.
  rewrite Hc. simpl. by rewrite Hc, Hs.
Qed.

Lemma fetch_single_gist_miss url store r j w :
  redis_client w = Some store →
  store !! url = None →
  github (sent w) url = Some r →
  json_loads P (text r) = Some j →
  fetch_single_gist P github url w =
    (Return j,
     {| redis_client := Some (<[url:=json_dumps P j]> store);
        sent := sent w ++ [url] |}).
Proof.
  intros Hc Hs Hg Hj.
  unfold fetch_single_gist, bind, redis_enabled, redis_get, redis_set, ret, lift.
  rewrite Hc. simpl. rewrite Hc, Hs, (requests_get_answer _ _ _ _ Hg).
  unfold after_requests, response_json. simpl. rewrite Hc, Hj. simpl.
  by rewrite ?Hj.
Qed.

Lemma fetch_single_gist_no_redis url w :
  redis_client w = None →
  fetch_single_gist P github url w =
    (match github (sent w) url with
     | Some r => response_json P r
     | None => Raise RequestException
     end, after_requests w [url]).
Proof.
  intros Hc.
  unfold fetch_single_gist, bind, redis_enabled, ret, lift. rewrite Hc.
  destruct (github (sent w) url) as [r|] eqn:Hg.
  - rewrite (requests_get_answer _ _ _ _ Hg).
    unfold after_requests. simpl. by rewrite Hc.
  - by rewrite (requests_get_failure _ _ _ Hg).
Qed.

Lemma fetch_single_gist_undecoded url r w :
  (∀ store, redis_client w = Some store → store !! url = None) →
  github (sent w) url = Some r →
  json_loads P (text r) = None →
  fetch_single_gist P github url w
  = (Raise JSONDecodeError, after_requests w [url]).
Proof.
  intros Hmiss Hg Hj.
  destruct (redis_client w) as [store|] eqn:Hc.
  - unfold fetch_single_gist, bind, redis_enabled, redis_get, redis_set, ret, lift.
    rewrite Hc. simpl. rewrite Hc, (Hmiss store eq_refl), (requests_get_answer _ _ _ _ Hg).
    unfold after_requests, response_json. simpl. by rewrite Hc, Hj.
  - rewrite (fetch_single_gist_no_redis url w Hc), Hg.
    unfold response_json. by rewrite Hj.
Qed.

(** X6.  With a redis client, a gist whose url is not yet stored and that
    GitHub answers with a JSON body is requested once: the first call
    returns the decoded body and stores its [json.dumps] text under the
    url; provided that text decodes back to the same value, a second call
    returns the same gist from the store and requests nothing. *)
Theorem fetch_single_gist_twice url store r j w :
  redis_client w = Some store →
  store !! url = None →
  github (sent w) url = Some r →
  json_loads P (text r) = Some j →
  json_loads P (json_dumps P j) = Some j →
  ∃ w1,
    fetch_single_gist P github url w = (Return j, w1)
    ∧ redis_client w1 = Some (<[url:=json_dumps P j]> store)
    ∧ sent w1 = sent w ++ [url]
    ∧ fetch_single_gist P github url w1 = (Return j, w1).
Proof.
  intros Hc Hs Hg Hj Hround. eexists.
  split; [by apply (fetch_single_gist_miss url store r j w)|].
  split; [done|]. split; [done|].
  erewrite fetch_single_gist_hit; [|done|apply lookup_insert_eq].
  unfold py_json_loads. by rewrite Hround.
Qed.

(** X7.  A gist answered with a body that is not JSON makes
    [fetch_single_gist] raise after the request, and nothing is stored:
    with redis the text is decoded before [set] is called. *)
Theorem fetch_single_gist_not_json url r w :
  (∀ store, redis_client w = Some store → store !! url = None) →
  github (sent w) url = Some r →
  json_loads P (text r) = None →
  fetch_single_gist P github url w
  = (Raise JSONDecodeError, after_requests w [url])
  ∧ redis_client (after_requests w [url]) = redis_client w.
Proof.
  intros Hmiss Hg Hj. split; [by apply (fetch_single_gist_undecoded url r w)|done].
Qed.

(** X9.  [fetch_file_content] raises only when the request cannot be
    carried out: an answer of any status is returned as the text of the
    file. *)
Theorem fetch_file_content_raises raw_url e w w' :
  fetch_file_content github raw_url w = (Raise e, w') →
  e = RequestException
  ∧ github (sent w) raw_url = None
  ∧ w' = after_requests w [raw_url].
Proof.
  destruct (redis_client w) as [store|] eqn:Hc.
  - destruct (store !! raw_url) as [cached|] eqn:Hs.
    + by rewrite (fetch_file_content_hit github raw_url store cached w Hc Hs).
    + destruct (github (sent w) raw_url) as [r|] eqn:Hg.
      * by rewrite (fetch_file_content_miss github raw_url store r w Hc Hs Hg).
      * rewrite (fetch_file_content_unreachable github raw_url w); [|congruence|done].
        by intros [= <- <-].
  - rewrite (fetch_file_content_no_redis github raw_url w Hc).
    destruct (github (sent w) raw_url); [done|]. by intros [= <- <-].
Qed.

(** ** Worlds only grow, continued *)

Lemma Grows_fetch_single_gist url : Grows (fetch_single_gist P github url).
Proof.
  intros w. destruct (redis_client w) as [store|] eqn:Hc.
  - destruct (store !! url) as [cached|] eqn:Hs.
    + rewrite (fetch_single_gist_hit url store cached w Hc Hs). apply grows_refl.
    + destruct (github (sent w) url) as [r|] eqn:Hg.
      * destruct (json_loads P (text r)) as [j|] eqn:Hj.
        -- rewrite (fetch_single_gist_miss url store r j w Hc Hs Hg Hj).
           by apply grows_stored.
        -- rewrite (fetch_single_gist_undecoded url r w); [|congruence|done|done].
           apply grows_after_requests.
      * rewrite (fetch_single_gist_unreachable P github url w); [|congruence|done].
        apply grows_after_requests.
  - rewrite (fetch_single_gist_no_redis url w Hc). apply grows_after_requests.
Qed.

Lemma Grows_check_user_exists username : Grows (check_user_exists P github username).
Proof.
  unfold check_user_exists.
  apply Grows_bind; [apply Grows_requests_get|].
  intros r. destruct (status_code r =? 404); [apply Grows_raise|apply Grows_ret].
Qed.

Lemma Grows_gists_for_user username : Grows (gists_for_user P github username).
Proof.
  intros w. destruct (gists_for_user_bounded username w) as (k & _ & -> & _).
  apply grows_after_requests.
Qed.

Lemma Grows_file_text_of gist_full filename :
  Grows (file_text_of github gist_full filename).
Proof.
  unfold file_text_of.
  repeat first
    [ apply Grows_fetch_file_content
    | apply Grows_lift
    | apply Grows_ret
    | match goal with |- Grows (if ?b then _ else _) => destruct b end
    | apply Grows_bind; [|intros ?] ].
Qed.

Lemma Grows_files_loop username pattern gist_full filenames matching :
  Grows (files_loop P github username pattern gist_full filenames matching).
Proof.
  induction filenames as [|filename filenames IH]; simpl; [apply Grows_ret|].
  apply Grows_bind; [apply Grows_file_text_of|]. intros file_text.
  apply Grows_bind; [apply Grows_lift|]. intros [|]; [|done].
  apply Grows_bind; [apply Grows_lift|]. intros id. apply Grows_ret.
Qed.

Lemma Grows_gists_loop username pattern :
  ∀ gists matching, Grows (gists_loop P github username pattern gists matching).
Proof.
  induction gists as [|gist gists IH]; intros matching; simpl; [apply Grows_ret|].
  repeat first
    [ apply Grows_fetch_single_gist
    | apply Grows_files_loop
    | apply IH
    | apply Grows_lift
    | apply Grows_bind; [|intros ?] ].
Qed.

Lemma Grows_search_matching username pattern :
  Grows (search_matching P github username pattern).
Proof.
  unfold search_matching.
  repeat first
    [ apply Grows_check_user_exists
    | apply Grows_gists_for_user
    | apply Grows_gists_loop
    | apply Grows_lift
    | apply Grows_bind; [|intros ?] ].
Qed.

Lemma Grows_search_except result e : Grows (search_except result e).
Proof.
  intros w. unfold search_except, error_result.
  destruct e, result; apply grows_refl.
Qed.

(** X8.  A search only adds to the world.  The requests sent before it
    are the first requests of the log after it.  Without a redis client
    there is none after it; with one, every entry of the store keeps its
    value, and every new entry is stored under the url of a request the
    search has sent. *)
Theorem search_grows post_data w :
  grows w (search P github post_data w).2.
Proof.
  unfold search.
  pose proof (search_arguments_world P post_data w) as Hw.
  destruct (search_arguments P post_data w) as [[[username pattern]|e] w1];
    simpl in Hw; subst w1.
  - pose proof (Grows_search_matching username pattern w) as Hm.
    destruct (search_matching P github username pattern w) as [[matching|e] w2];
      simpl in Hm; [done|].
    eapply grows_trans; [done|]. apply Grows_search_except.
  - apply Grows_search_except.
Qed.

(** ** The exceptions of a search *)

Lemma Raises_ret {A} allowed (a : A) : Raises allowed (ret a).
Proof. by intros w e w'. Qed.

Lemma Raises_lift {A} (allowed : exn → Prop) (r : result A) :
  (∀ e, r = Raise e → allowed e) → Raises allowed (lift r).
Proof. intros Hr w e w' [= -> _]. by apply Hr. Qed.

Lemma Raises_bind {A B} allowed (c : M A) (k : A → M B) :
  Raises allowed c → (∀ a, Raises allowed (k a)) → Raises allowed (bind c k).
Proof.
  intros Hc Hk w e w'. unfold bind.
  destruct (c w) as [[a|e0] w1] eqn:Hcw.
  - apply Hk.
  - intros [= <- <-]. by eapply Hc.
Qed.

(** The operations on values raise exceptions of the interpreter and of
    the libraries, never one of the module. *)
Lemma py_getitem_raises v key e : py_getitem v key = Raise e → own e = false.
Proof.
  destruct v; simpl; try by intros [= <-].
  destruct (dict_get key members); [done|by intros [= <-]].
Qed.

Lemma as_url_raises v e : as_url v = Raise e → own e = false.
Proof. destruct v; simpl; try done; by intros [= <-]. Qed.

Lemma py_keys_raises v e : py_keys v = Raise e → own e = false.
Proof. destruct v; simpl; try done; by intros [= <-]. Qed.

Lemma py_iter_raises v e : py_iter v = Raise e → own e = false.
Proof. destruct v; simpl; try done; by intros [= <-]. Qed.

Lemma py_re_match_raises pattern file_text e :
  py_re_match P pattern file_text = Raise e → own e = false.
Proof.
  unfold py_re_match, py_re_compile.
  destruct pattern; try by intros [= <-].
  destruct (re_compile P s); [|by intros [= <-]].
  destruct file_text; try done; by intros [= <-].
Qed.

Lemma fetch_single_gist_raises url :
  Raises (fun e => own e = false) (fetch_single_gist P github url).
Proof.
  intros w e w'. destruct (redis_client w) as [store|] eqn:Hc.
  - destruct (store !! url) as [cached|] eqn:Hs.
    + rewrite (fetch_single_gist_hit url store cached w Hc Hs).
      unfold py_json_loads. destruct (json_loads P cached); [done|by intros [= <- _]].
    + destruct (github (sent w) url) as [r|] eqn:Hg.
      * destruct (json_loads P (text r)) as [j|] eqn:Hj.
        -- by rewrite (fetch_single_gist_miss url store r j w Hc Hs Hg Hj).
        -- rewrite (fetch_single_gist_undecoded url r w); [|congruence|done|done].
           by intros [= <- _].
      * rewrite (fetch_single_gist_unreachable P github url w); [|congruence|done].
        by intros [= <- _].
  - rewrite (fetch_single_gist_no_redis url w Hc).
    destruct (github (sent w) url) as [r|]; [|by intros [= <- _]].
    unfold response_json. destruct (json_loads P (text r)); [done|by intros [= <- _]].
Qed.

Lemma fetch_file_content_not_own raw_url :
  Raises (fun e => own e = false) (fetch_file_content github raw_url).
Proof.
  intros w e w' H. by apply fetch_file_content_raises in H as (-> & _).
Qed.

Lemma file_text_of_raises gist_full filename :
  Raises (fun e => own e = false) (file_text_of github gist_full filename).
Proof.
  unfold file_text_of.
  repeat first
    [ apply fetch_file_content_not_own
    | apply Raises_ret
    | apply Raises_lift; first [apply py_getitem_raises | apply as_url_raises]
    | match goal with |- Raises _ (if ?b then _ else _) => destruct b end
    | apply Raises_bind; [|intros ?] ].
Qed.

Lemma files_loop_raises username pattern gist_full filenames matching :
  Raises (fun e => own e = false)
    (files_loop P github username pattern gist_full filenames matching).
Proof.
  induction filenames as [|filename filenames IH]; simpl; [apply Raises_ret|].
  apply Raises_bind; [apply file_text_of_raises|]. intros file_text.
  apply Raises_bind; [apply Raises_lift, py_re_match_raises|]. intros [|]; [|done].
  apply Raises_bind; [apply Raises_lift, py_getitem_raises|]. intros id.
  apply Raises_ret.
Qed.

Lemma gists_loop_raises username pattern :
  ∀ gists matching,
    Raises (fun e => own e = false)
      (gists_loop P github username pattern gists matching).
Proof.
  induction gists as [|gist gists IH]; intros matching; simpl; [apply Raises_ret|].
  repeat first
    [ apply fetch_single_gist_raises
    | apply files_loop_raises
    | apply IH
    | apply Raises_lift;
      first [apply py_getitem_raises | apply as_url_raises | apply py_keys_raises]
    | apply Raises_bind; [|intros ?] ].
Qed.

Lemma check_user_exists_raises username e w w' :
  check_user_exists P github username w = (Raise e, w') →
  w' = after_requests w [user_url P username]
  ∧ ((e = UserNotFound
      ∧ ∃ r, github (sent w) (user_url P username) = Some r ∧ status_code r = 404)
     ∨ (e = RequestException ∧ github (sent w) (user_url P username) = None)).
Proof.
  destruct (github (sent w) (user_url P username)) as [r|] eqn:Hg.
  - destruct (decide (status_code r = 404)) as [Hs|Hs].
    + rewrite (check_user_exists_404 P github username r w Hg Hs).
      intros [= <- <-]. split; [done|]. left. split; [done|]. by exists r.
    + by rewrite (check_user_exists_pass P github username r w Hg Hs).
  - rewrite (check_user_exists_unreachable P github username w Hg).
    intros [= <- <-]. split; [done|]. by right.
Qed.

(** Where an exception of the [try] block after the arguments comes
    from. *)
Lemma search_matching_raises username pattern e w w' :
  search_matching P github username pattern w = (Raise e, w') →
  (e = UserNotFound
   ∧ w' = after_requests w [user_url P username]
   ∧ ∃ r, github (sent w) (user_url P username) = Some r ∧ status_code r = 404)
  ∨ (e = ExternalError
     ∧ ∃ w1, check_user_exists P github username w = (Return tt, w1)
             ∧ gists_for_user P github username w1 = (Raise ExternalError, w'))
  ∨ own e = false.
Proof.
  unfold search_matching, bind, lift.
  destruct (check_user_exists P github username w) as [[[]|e0] w1] eqn:Hc.
  2:{ intros [= <- <-].
      apply check_user_exists_raises in Hc as (-> & [[-> Hr]|[-> _]]).
      - by left.
      - by right; right. }
  destruct (gists_for_user P github username w1) as [[listing|e0] w2] eqn:Hl.
  2:{ intros [= <- <-].
      destruct (gists_for_user_bounded username w1) as (_ & _ & _ & He).
      rewrite Hl in He. rewrite (He e0 eq_refl) in *.
      right; left. split; [done|]. by exists w1. }
  destruct (py_iter listing) as [gists|e0] eqn:Hi.
  2:{ intros [= <- <-]. right; right. by eapply py_iter_raises. }
  intros H. right; right. by eapply gists_loop_raises.
Qed.

(** X10.  What a search can end with.  [UnboundLocalError] leaves the
    view exactly when the arguments are refused, and no other exception
    ever leaves it.  When the view returns, the arguments were accepted and
    the answer is one of four: 200 with the username and the pattern of the
    request and the matches, 400 with "Invalid username", 500 with
    "Information could not be retrieved from Github", or 500 with "Your
    request could not be processed".  The answer 400 with "Bad or missing
    parameter" is never returned, and an answer that reports an error
    carries no matches. *)
Theorem search_outcomes post_data w :
  ((∃ e, (search_arguments P post_data w).1 = Raise e)
   ↔ (search P github post_data w).1 = Raise UnboundLocalError)
  ∧ (∀ e, (search P github post_data w).1 = Raise e → e = UnboundLocalError)
  ∧ (∀ body status,
       (search P github post_data w).1 = Return (body, status) →
       ∃ username pattern,
         search_arguments P post_data w = (Return (username, pattern), w)
         ∧ ((∃ urls, status = 200 ∧ body = success_body username pattern urls)
            ∨ (status = 400 ∧ body = error_body 400 "Invalid username")
            ∨ (status = 500
               ∧ body
                 = error_body 500 "Information could not be retrieved from Github")
            ∨ (status = 500
               ∧ body = error_body 500 "Your request could not be processed"))).
Proof.
  pose proof (search_arguments_world P post_data w) as Hw.
  destruct (search_arguments P post_data w) as [[[username pattern]|e] w1] eqn:Ha;
    simpl in Hw; subst w1.
  2:{ rewrite (search_arguments_refused P github post_data e w) by by rewrite Ha.
      simpl. split; [|split].
      - split; [done|]. intros _. by exists e.
      - by intros e' [= <-].
      - done. }
  assert (∃ body status,
            (search P github post_data w).1 = Return (body, status)
            ∧ ((∃ urls, status = 200 ∧ body = success_body username pattern urls)
               ∨ (status = 400 ∧ body = error_body 400 "Invalid username")
               ∨ (status = 500
                  ∧ body
                    = error_body 500 "Information could not be retrieved from Github")
               ∨ (status = 500
                  ∧ body = error_body 500 "Your request could not be processed")))
    as (body & status & Hs & Hcases).
  { rewrite (search_after_arguments P github _ _ _ _ Ha).
    destruct (search_matching P github username pattern w) as [[urls|e] w2] eqn:Hm.
    - eexists _, _. split; [done|]. left. by exists urls.
    - apply search_matching_raises in Hm as [(-> & _)|[(-> & _)|Hown]].
      + eexists _, _. split; [done|]. right; left. done.
      + eexists _, _. split; [done|]. right; right; left. done.
      + destruct e; try done; (eexists _, _; split; [done|]);
          right; right; right; done. }
  rewrite Hs. simpl. split; [|split].
  - split; [by intros [e He]|done].
  - done.
  - intros body' status' [= <- <-]. by exists username, pattern.
Qed.

(** X11.  Where the answers that report an error come from, for accepted
    arguments.  The answer 400 is returned only when the user resource was
    answered with status 404, and then nothing else was requested.  The
    answer "Information could not be retrieved from Github" is returned
    only when the existence check passed and the listing failed: a fetch of
    a gist or of a raw url never leads to it. *)
Theorem search_error_causes post_data username pattern body status w w' :
  search_arguments P post_data w = (Return (username, pattern), w) →
  search P github post_data w = (Return (body, status), w') →
  (status = 400 →
     body = error_body 400 "Invalid username"
     ∧ w' = after_requests w [user_url P username]
     ∧ ∃ r, github (sent w) (user_url P username) = Some r ∧ status_code r = 404)
  ∧ (body = error_body 500 "Information could not be retrieved from Github" →
     ∃ w1, check_user_exists P github username w = (Return tt, w1)
           ∧ gists_for_user P github username w1 = (Raise ExternalError, w')).
Proof.
  intros Ha. rewrite (search_after_arguments P github _ _ _ _ Ha).
  destruct (search_matching P github username pattern w) as [[urls|e] w2] eqn:Hm.
  - intros [= <- <- <-]. split; [done|]. unfold success_body, error_body. done.
  - apply search_matching_raises in Hm as [(-> & -> & Hr)|[(-> & Hl)|Hown]].
    + intros [= <- <- <-]. split; [done|]. unfold error_body. done.
    + intros [= <- <- <-]. split; [done|]. done.
    + destruct e; try done; intros [= <- <- <-]; (split; [done|]);
        unfold error_body; done.
Qed.

(** ** Searches that run as planned *)

(** X15.  The converse of the description of a successful search: when
    the arguments are accepted, the existence check passes, the listing is
    returned and its gists are scanned without an exception, the view
    answers 200 with the urls of the scan. *)
Theorem search_complete post_data username pattern listing gists urls w w1 w2 w' :
  search_arguments P post_data w = (Return (username, pattern), w) →
  check_user_exists P github username w = (Return tt, w1) →
  gists_for_user P github username w1 = (Return listing, w2) →
  py_iter listing = Return gists →
  scanned P github username pattern gists w2 urls w' →
  search P github post_data w
  = (Return (success_body username pattern urls, 200), w').
Proof.
  intros Ha Hc Hl Hi Hs. rewrite (search_after_arguments P github _ _ _ _ Ha).
  unfold search_matching, bind, lift. rewrite Hc, Hl, Hi.
  by rewrite (scanned_gists_loop P github _ _ _ _ _ _ Hs []).
Qed.

(** X3.  A user without gists: when the arguments are accepted, the user
    resource is answered with a status other than 404 and the first page
    of the listing is the empty array, the search answers 200 with no
    matches after two requests. *)
Theorem search_no_gists post_data username pattern r w :
  search_arguments P post_data w = (Return (username, pattern), w) →
  github (sent w) (user_url P username) = Some r →
  status_code r ≠ 404 →
  serves P github username 1 [] →
  search P github post_data w
  = (Return (success_body username pattern [], 200),
     after_requests w [user_url P username; gists_url P username 1]).
Proof.
  intros Ha Hg Hs Hserve. rewrite (search_after_arguments P github _ _ _ _ Ha).
  unfold search_matching, bind, lift.
  rewrite (check_user_exists_pass P github username r w Hg Hs).
  rewrite (gists_for_user_run P github username [[]]); try done.
  - simpl. by rewrite after_requests_app.
  - by intros [|i] items; [intros [= <-]|].
  - intros [|i] items; [|done]. simpl. lia.
  - intros items [= <-]. by left.
  - simpl. lia.
Qed.

(** X4.  A listing that fails: when the arguments are accepted, the user
    resource is answered with a status other than 404, the pages 1 to k
    are full and page k+1 is not served, the search answers 500 with
    "Information could not be retrieved from Github". *)
Theorem search_listing_failure post_data username pattern r
    (pages : list (list json)) w :
  search_arguments P post_data w = (Return (username, pattern), w) →
  github (sent w) (user_url P username) = Some r →
  status_code r ≠ 404 →
  (length pages <= 30)%nat →
  (∀ i items, pages !! i = Some items →
     serves P github username (Z.of_nat (S i)) items ∧ length items = 100%nat) →
  broken P github username (Z.of_nat (S (length pages))) →
  search P github post_data w
  = (Return (error_body 500 "Information could not be retrieved from Github", 500),
     after_requests w
       (user_url P username :: page_urls P username (S (length pages)))).
Proof.
  intros Ha Hg Hs Hcap Hpages Hbroken.
  rewrite (search_after_arguments P github _ _ _ _ Ha).
  unfold search_matching, bind, lift.
  rewrite (check_user_exists_pass P github username r w Hg Hs).
  rewrite (gists_for_user_broken username pages _ Hcap Hpages Hbroken).
  simpl. by rewrite after_requests_app.
Qed.

(** X5.  An existence check that cannot be carried out: when the
    arguments are accepted and the request for the user resource fails in
    transport, the search answers 500 with "Your request could not be
    processed" after that one request. *)
Theorem search_user_unreachable post_data username pattern w :
  search_arguments P post_data w = (Return (username, pattern), w) →
  github (sent w) (user_url P username) = None →
  search P github post_data w
  = (Return (error_body 500 "Your request could not be processed", 500),
     after_requests w [user_url P username]).
Proof.
  intros Ha Hg. rewrite (search_after_arguments P github _ _ _ _ Ha).
  unfold search_matching, bind.
  by rewrite (check_user_exists_unreachable P github username w Hg).
Qed.

(** X17.  Which requests are accepted: those that have a username that
    is not null, of whatever type, and a pattern that is a string and
    compiles; the arguments are then these two members, and the world is
    left as it is. *)
Theorem search_arguments_iff post_data username pattern w w' :
  search_arguments P post_data w = (Return (username, pattern), w')
  ↔ w' = w
    ∧ py_getitem post_data "username" = Return username
    ∧ username ≠ JNull
    ∧ py_getitem post_data "pattern" = Return pattern
    ∧ ∃ s r, pattern = JStr s ∧ re_compile P s = Some r.
Proof.
  split.
  - intros Ha. pose proof (search_arguments_world P post_data w) as Hw.
    rewrite Ha in Hw. simpl in Hw. subst w'.
    apply search_arguments_accepted in Ha as (Hu & Hp & Hnu & Hnp & r & Hr).
    split; [done|]. split; [done|]. split; [by intros ->|]. split; [done|].
    unfold py_re_compile in Hr. destruct pattern; try done.
    destruct (re_compile P s) as [r'|] eqn:Hc; [|done]. by exists s, r'.
  - intros (-> & Hu & Hnu & Hp & s & r & -> & Hc).
    apply (search_arguments_ok P post_data username (JStr s) r); try done.
    + by destruct username.
    + unfold py_re_compile. by rewrite Hc.
Qed.

(** ** Files that are not truncated *)

Lemma file_text_of_inline gist_full filename w :
  inline gist_full filename →
  (file_text_of github gist_full filename w).2 = w.
Proof.
  intros (files & file_object & truncated & Hf & Ho & Ht & Hfalse).
  unfold file_text_of, bind, lift. rewrite Hf, Ho, Ht, Hfalse.
  by destruct (py_getitem file_object "content").
Qed.

(** X12.  A gist all of whose files are flagged as not truncated is
    searched without a request and without a look at the store: the loop
    over its files leaves the world as it is. *)
Theorem files_loop_inline username pattern gist_full filenames matching w :
  Forall (inline gist_full) filenames →
  (files_loop P github username pattern gist_full filenames matching w).2 = w.
Proof.
  induction 1 as [|filename filenames Hin _ IH]; [done|].
  rewrite files_loop_cons.
  pose proof (file_text_of_inline gist_full filename w Hin) as Hw.
  destruct (file_text_of github gist_full filename w) as [[t|e] w1];
    simpl in Hw; subst w1; [|done].
  destruct (py_re_match P pattern t) as [[|]|e]; [|done|done].
  by destruct (py_getitem gist_full "id").
Qed.

(** ** The configuration of the cache *)

(** X13.  The store is used exactly when the variable WITH_REDIS is set
    to a string that is not empty, whatever the string: then a url that
    the store holds is served without a request; when the variable is not
    set, or is set to the empty string, the url is requested although the
    store holds it. *)
Theorem module_world_cache environ store raw_url cached :
  store !! raw_url = Some cached →
  (∀ value, environ !! "WITH_REDIS" = Some value → value ≠ EmptyString →
     fetch_file_content github raw_url (module_world environ store)
     = (Return cached, module_world environ store))
  ∧ (environ !! "WITH_REDIS" = None ∨ environ !! "WITH_REDIS" = Some EmptyString →
     sent (fetch_file_content github raw_url (module_world environ store)).2
     = [raw_url]).
Proof.
  intros Hs. split.
  - intros value He Hne.
    apply (fetch_file_content_hit github raw_url store cached); [|done].
    unfold module_world. rewrite He. simpl.
    destruct (String.eqb_spec value EmptyString); done.
  - intros He. rewrite fetch_file_content_no_redis; [done|].
    unfold module_world. by destruct He as [->| ->].
Qed.

(** ** A scan served from the store *)

Lemma covered_grows w w' store :
  grows w w' → covered w' store → covered w store.
Proof.
  intros (urls & _ & Hr) (held' & Hc' & Hsub). unfold covered.
  rewrite Hc' in Hr. destruct (redis_client w) as [held|]; [|done].
  destruct Hr as [Hsub' _]. exists held. split; [done|]. by etrans.
Qed.

(** What a call has returned with redis, a later call returns from any
    store that holds what the first call left, without a request. *)
Lemma fetch_file_content_replay raw_url file_text w w1 w2 store :
  fetch_file_content github raw_url w = (Return file_text, w1) →
  covered w1 store →
  redis_client w2 = Some store →
  fetch_file_content github raw_url w2 = (Return file_text, w2).
Proof.
  intros Hf (held1 & Hc1 & Hsub) Hc2.
  apply (fetch_file_content_hit github raw_url store file_text w2 Hc2).
  apply (lookup_weaken held1); [|done].
  destruct (redis_client w) as [held|] eqn:Hc.
  - destruct (held !! raw_url) as [cached|] eqn:Hs.
    + rewrite (fetch_file_content_hit github raw_url held cached w Hc Hs) in Hf.
      injection Hf as <- <-. rewrite Hc in Hc1. by injection Hc1 as <-.
    + destruct (github (sent w) raw_url) as [r|] eqn:Hg.
      * rewrite (fetch_file_content_miss github raw_url held r w Hc Hs Hg) in Hf.
        injection Hf as <- <-. simpl in Hc1. injection Hc1 as <-.
        apply lookup_insert_eq.
      * by rewrite (fetch_file_content_unreachable github raw_url w) in Hf
          by (congruence || done).
  - rewrite (fetch_file_content_no_redis github raw_url w Hc) in Hf.
    destruct (github (sent w) raw_url); [|done].
    injection Hf as _ <-. simpl in Hc1. congruence.
Qed.

Lemma fetch_single_gist_replay url gist_full w w1 w2 store :
  (∀ s j, json_loads P s = Some j → json_loads P (json_dumps P j) = Some j) →
  fetch_single_gist P github url w = (Return gist_full, w1) →
  covered w1 store →
  redis_client w2 = Some store →
  fetch_single_gist P github url w2 = (Return gist_full, w2).
Proof.
  intros Hround Hf (held1 & Hc1 & Hsub) Hc2.
  destruct (redis_client w) as [held|] eqn:Hc.
  - destruct (held !! url) as [cached|] eqn:Hs.
    + rewrite (fetch_single_gist_hit url held cached w Hc Hs) in Hf.
      injection Hf as Hl <-. rewrite Hc in Hc1. injection Hc1 as <-.
      rewrite (fetch_single_gist_hit url store cached w2 Hc2); [by rewrite Hl|].
      by apply (lookup_weaken held).
    + destruct (github (sent w) url) as [r|] eqn:Hg.
      * destruct (json_loads P (text r)) as [j|] eqn:Hj.
        -- rewrite (fetch_single_gist_miss url held r j w Hc Hs Hg Hj) in Hf.
           injection Hf as <- <-. simpl in Hc1. injection Hc1 as <-.
           rewrite (fetch_single_gist_hit url store (json_dumps P j) w2 Hc2).
           ++ unfold py_json_loads. by rewrite (Hround _ _ Hj).
           ++ apply (lookup_weaken (<[url:=json_dumps P j]> held)); [|done].
              apply lookup_insert_eq.
        -- by rewrite (fetch_single_gist_undecoded url r w) in Hf
             by (congruence || done).
      * by rewrite (fetch_single_gist_unreachable P github url w) in Hf
          by (congruence || done).
  - rewrite (fetch_single_gist_no_redis url w Hc) in Hf.
    injection Hf as _ <-. simpl in Hc1. congruence.
Qed.

Lemma file_text_of_replay gist_full filename file_text w w1 w2 store :
  file_text_of github gist_full filename w = (Return file_text, w1) →
  covered w1 store →
  redis_client w2 = Some store →
  file_text_of github gist_full filename w2 = (Return file_text, w2).
Proof.
  unfold file_text_of, bind, lift, ret.
  destruct (py_getitem gist_full "files") as [files|]; [|done].
  destruct (py_getitem files filename) as [file_object|]; [|done].
  destruct (py_getitem file_object "truncated") as [truncated|]; [|done].
  destruct (py_truth truncated).
  - destruct (py_getitem file_object "raw_url") as [raw_url|]; [|done].
    destruct (as_url raw_url) as [u|]; [|done].
    destruct (fetch_file_content github u w) as [[t|e] w0] eqn:Hf; [|done].
    intros [= <- <-] Hcov Hc2.
    by rewrite (fetch_file_content_replay u t w w0 w2 store Hf Hcov Hc2).
  - destruct (py_getitem file_object "content"); [|done].
    by intros [= <- <-] _ _.
Qed.

Lemma files_loop_replay username pattern gist_full :
  ∀ filenames matching matching' w w1 w2 store,
    files_loop P github username pattern gist_full filenames matching w
      = (Return matching', w1) →
    covered w1 store →
    redis_client w2 = Some store →
    files_loop P github username pattern gist_full filenames matching w2
    = (Return matching', w2).
Proof.
  induction filenames as [|filename filenames IH];
    intros matching matching' w w1 w2 store Hf Hcov Hc2.
  - simpl in *. unfold ret in *. by injection Hf as <- _.
  - rewrite files_loop_cons in Hf. rewrite files_loop_cons.
    destruct (file_text_of github gist_full filename w) as [[t|e] w0] eqn:Ht; [|done].
    assert (covered w0 store) as Hcov0.
    { destruct (py_re_match P pattern t) as [[|]|e]; [| |done].
      - destruct (py_getitem gist_full "id"); [|done]. by injection Hf as _ <-.
      - eapply covered_grows; [|done].
        pose proof (Grows_files_loop username pattern gist_full filenames matching w0)
          as Hg. by rewrite Hf in Hg. }
    rewrite (file_text_of_replay gist_full filename t w w0 w2 store Ht Hcov0 Hc2).
    destruct (py_re_match P pattern t) as [[|]|e]; [| |done].
    + destruct (py_getitem gist_full "id"); [|done]. by injection Hf as <- _.
    + by eapply IH.
Qed.

Lemma gists_loop_replay username pattern :
  (∀ s j, json_loads P s = Some j → json_loads P (json_dumps P j) = Some j) →
  ∀ gists matching matching' w w1 w2 store,
    gists_loop P github username pattern gists matching w = (Return matching', w1) →
    covered w1 store →
    redis_client w2 = Some store →
    gists_loop P github username pattern gists matching w2 = (Return matching', w2).
Proof.
  intros Hround.
  induction gists as [|gist gists IH];
    intros matching matching' w w1 w2 store Hl Hcov Hc2.
  - simpl in *. unfold ret in *. by injection Hl as <- _.
  - rewrite gists_loop_cons in Hl. rewrite gists_loop_cons.
    destruct (py_getitem gist "url") as [v|]; [|done].
    destruct (as_url v) as [url|]; [|done].
    destruct (fetch_single_gist P github url w) as [[gist_full|e] wa] eqn:Hg; [|done].
    destruct (py_getitem gist_full "files") as [files|] eqn:Hfiles; [|done].
    destruct (py_keys files) as [filenames|] eqn:Hk; [|done].
    destruct (files_loop P github username pattern gist_full filenames matching wa)
      as [[m1|e] wb] eqn:Hf; [|done].
    assert (covered wb store) as Hcovb.
    { eapply covered_grows; [|done].
      pose proof (Grows_gists_loop username pattern gists m1 wb) as Hgr.
      by rewrite Hl in Hgr. }
    assert (covered wa store) as Hcova.
    { eapply covered_grows; [|done].
      pose proof (Grows_files_loop username pattern gist_full filenames matching wa)
        as Hgr. by rewrite Hf in Hgr. }
    rewrite (fetch_single_gist_replay url gist_full w wa w2 store Hround Hg Hcova Hc2).
    rewrite Hfiles, Hk.
    rewrite (files_loop_replay username pattern gist_full filenames matching m1
               wa wb w2 store Hf Hcovb Hc2).
    by eapply IH.
Qed.

(** X16.  A scan is repeatable from the store.  When the loop over the
    gists of a listing has ended without an exception in a world with a
    redis client, the same loop, started in any world whose store holds
    what the first run left, ends with the same urls without a request
    and without a change of the store, whatever GitHub would answer now;
    provided that the [json.dumps] text of a decoded body decodes back to
    it. *)
Theorem gists_loop_from_store username pattern gists urls w w1 held w2 store :
  (∀ s j, json_loads P s = Some j → json_loads P (json_dumps P j) = Some j) →
  gists_loop P github username pattern gists [] w = (Return urls, w1) →
  redis_client w1 = Some held →
  redis_client w2 = Some store →
  held ⊆ store →
  gists_loop P github username pattern gists [] w2 = (Return urls, w2).
Proof.
  intros Hround Hl Hc1 Hc2 Hsub.
  apply (gists_loop_replay username pattern Hround gists [] urls w w1 w2 store);
    [done| |done].
  by exists held.
Qed.

(** ** A listing with a bad item *)

(** X14.  An item of the listing without a url ends the search with the
    answer 500 "Your request could not be processed", also when gists
    before it have matched; nothing is requested for the item or for the
    items after it. *)
Theorem search_item_without_url post_data username pattern listing
    before item after urls w w1 w2 w3 :
  search_arguments P post_data w = (Return (username, pattern), w) →
  check_user_exists P github username w = (Return tt, w1) →
  gists_for_user P github username w1 = (Return listing, w2) →
  py_iter listing = Return (before ++ item :: after) →
  scanned P github username pattern before w2 urls w3 →
  py_getitem item "url" = Raise KeyError →
  search P github post_data w
  = (Return (error_body 500 "Your request could not be processed", 500), w3).
Proof.
  intros Ha Hc Hl Hi Hs Hitem.
  rewrite (search_after_arguments P github _ _ _ _ Ha).
  unfold search_matching, bind, lift. rewrite Hc, Hl, Hi.
  assert (∀ matching,
            gists_loop P github username pattern (before ++ item :: after) matching w2
            = (Raise KeyError, w3)) as Hloop.
  { clear Hi Hl Hc Ha. induction Hs
      as [w0|gist gists url gist_full files filenames w0 wa wb wc us
            Hv Hg Hfiles Hk Hf _ IH
         |gist gists url gist_full files filenames id w0 wa wb wc us
            Hv Hg Hfiles Hk Hf Hid _ IH]; intros matching.
    - simpl. unfold bind, lift. by rewrite Hitem.
    - change ((gist :: gists) ++ item :: after)
        with (gist :: (gists ++ item :: after)).
      rewrite gists_loop_cons, Hv. simpl. rewrite Hg, Hfiles, Hk.
      rewrite (files_loop_none P github _ _ _ matching _ _ _ Hf). apply IH.
    - change ((gist :: gists) ++ item :: after)
        with (gist :: (gists ++ item :: after)).
      rewrite gists_loop_cons, Hv. simpl. rewrite Hg, Hfiles, Hk.
      rewrite (files_loop_found P github _ _ _ matching _ _ _ _ Hf Hid). apply IH. }
  by rewrite Hloop.
Qed.

Lemma grows_redis w w' store :
  grows w w' →
  redis_client w = Some store →
  ∃ store', redis_client w' = Some store' ∧ store ⊆ store'.
Proof.
  intros (urls & _ & Hr) Hc. rewrite Hc in Hr.
  destruct (redis_client w') as [store'|]; [|done].
  exists store'. by destruct Hr.
Qed.

End Further.

(** * The properties on the scenarios *)

Import Example.

(** Every page is full: 31 pages are requested and 3100 items returned. *)
Lemma gists_for_user_fetches_page_31_witness :
  gists_for_user P0 all_full octocat no_redis =
    (Return (JArr (concat (replicate 30 full_items) ++ full_items)),
     after_requests no_redis (page_urls P0 octocat 30 ++ [gists_url P0 octocat 31]))
  ∧ length (concat (replicate 30 full_items) ++ full_items)
    = (3000 + length full_items)%nat.
Proof.
  apply (gists_for_user_fetches_page_31 P0 all_full octocat
           (replicate 30 full_items) full_items no_redis).
  - reflexivity.
  - intros i items Hi. apply lookup_replicate in Hi as [-> _]. reflexivity.
  - intros i items Hi.
    assert (items = full_items) as ->.
    { apply lookup_app_Some in Hi as [Hi|[_ Hi]].
      - by apply lookup_replicate in Hi as [-> _].
      - apply list_lookup_singleton_Some in Hi as [_ <-]. done. }
    intros history. exists (ok full_page).
    split; [reflexivity|]. split; [reflexivity|]. vm_compute. reflexivity.
Defined.

(** A full page and a page of three items: two requests, 103 items. *)
Lemma gists_for_user_paginates_witness :
  gists_for_user P0 (scripted two_pages) octocat no_redis =
    (Return (JArr (concat [full_items; listed])),
     after_requests no_redis (page_urls P0 octocat (length [full_items; listed]))).
Proof.
  apply (gists_for_user_paginates P0 (scripted two_pages) octocat
           [full_items; listed] no_redis).
  - done.
  - simpl. lia.
  - intros [|[|i]] items; simpl; intros [= <-]; intros history.
    + exists (ok full_page). split; [reflexivity|]. split; [reflexivity|].
      vm_compute. reflexivity.
    + exists (ok listing). split; [reflexivity|]. split; [reflexivity|].
      vm_compute. reflexivity.
  - intros [|[|i]] items; simpl; intros [= <-] Hlt; [reflexivity|lia].
  - intros items [= <-]. vm_compute. lia.
Defined.

(** With an empty store the raw url of big.txt is requested once for two
    calls; without redis it is requested twice. *)
Lemma fetch_file_content_twice_witness :
  (∃ w1,
     fetch_file_content (scripted healthy) (raw "big.txt") empty_redis
       = (Return "foobar", w1)
     ∧ redis_client w1 = Some (<[raw "big.txt":="foobar"]> ∅)
     ∧ sent w1 = [raw "big.txt"]
     ∧ fetch_file_content (scripted healthy) (raw "big.txt") w1
       = (Return "foobar", w1))
  ∧ (∃ res1 res2 w1 w2,
       fetch_file_content (scripted healthy) (raw "big.txt") no_redis = (res1, w1)
       ∧ fetch_file_content (scripted healthy) (raw "big.txt") w1 = (res2, w2)
       ∧ sent w1 = [raw "big.txt"]
       ∧ sent w2 = [raw "big.txt"; raw "big.txt"]).
Proof.
  split.
  - apply (proj1 (fetch_file_content_twice (scripted healthy) (raw "big.txt") empty_redis)
             ∅ (mkResponse 200 "foobar")); reflexivity.
  - apply (proj2 (fetch_file_content_twice (scripted healthy) (raw "big.txt") no_redis)).
    reflexivity.
Defined.

(** The user resource answers 500, and the existence check passes. *)
Lemma check_user_exists_500_passes :
  scripted user_500 (sent no_redis) (user_url P0 octocat)
    = Some (mkResponse 500 "Server Error")
  ∧ check_user_exists P0 (scripted user_500) octocat no_redis
    = (Return tt, after_requests no_redis [user_url P0 octocat])
  ∧ (check_user_exists P0 (scripted user_500) octocat no_redis).1
    ≠ Raise ExternalError.
Proof. split; [reflexivity|]. split; [reflexivity|]. vm_compute. discriminate. Qed.

(** The user resource answers 404, and the search answers 400. *)
Lemma check_user_exists_only_404_witness :
  check_user_exists P0 (scripted user_404) octocat no_redis
    = (Raise UserNotFound, after_requests no_redis [user_url P0 octocat])
  ∧ search P0 (scripted user_404) (request octocat (JStr "foo")) no_redis
    = (Return (error_body 400 "Invalid username", 400),
       after_requests no_redis [user_url P0 octocat]).
Proof.
  destruct (check_user_exists_only_404 P0 (scripted user_404) octocat
              (mkResponse 404 "Not Found") no_redis eq_refl) as [H404 _].
  destruct (H404 eq_refl) as [Hcheck Hsearch].
  split; [exact Hcheck|].
  apply (Hsearch (request octocat (JStr "foo")) (JStr "foo")). reflexivity.
Defined.

(** A null username: [UnboundLocalError] leaves the view. *)
Lemma search_bad_parameter_unbound_witness :
  search P0 (scripted healthy) (JObj [("username", JNull); ("pattern", JStr "foo")])
    no_redis
  = (Raise UnboundLocalError, no_redis).
Proof.
  apply (search_bad_parameter_unbound P0 (scripted healthy)
           [("username", JNull); ("pattern", JStr "foo")] no_redis).
  right. left. reflexivity.
Defined.


(** The files of [d1] and of [d2] against the pattern foo: the text of
    notes.txt contains foo but does not start with it, and is no match;
    a.py is a match, and b.py, which is truncated, is not requested. *)
Lemma files_loop_first_match_witness :
  files_loop P0 (scripted healthy) octocat (JStr "foo") d1 ["notes.txt"] [] no_redis
    = (Return [], no_redis)
  ∧ files_loop P0 (scripted healthy) octocat (JStr "foo") d2 ([] ++ "a.py" :: ["b.py"])
      [] no_redis
    = (Return ([] ++ [gist_page P0 octocat (JStr "d2")]), no_redis)
  ∧ re_search P0 ("foo" : regex P0) "a foo" = true.
Proof.
  destruct (files_loop_first_match P0 (scripted healthy) octocat (JStr "foo") d1 [])
    as (Hnone & _).
  destruct (files_loop_first_match P0 (scripted healthy) octocat (JStr "foo") d2 [])
    as (_ & Hfirst & _).
  split; [|split].
  - apply Hnone. apply (tried_none _ _ _ _ ["notes.txt"] [JStr "a foo"]).
    + reflexivity.
    + repeat constructor.
  - apply Hfirst; [|reflexivity].
    apply (tried_first _ _ _ _ [] "a.py" ["b.py"] [] (JStr "foo")
             no_redis no_redis no_redis); try reflexivity. constructor.
  - reflexivity.
Defined.

(** The three gists against foo: [d1] is passed over, [d2] and [d3] are
    reported, in this order. *)
Lemma search_success_witness :
  ∃ username pattern listing gists urls w1 w2,
    py_getitem (request octocat (JStr "foo")) "username" = Return username
    ∧ py_getitem (request octocat (JStr "foo")) "pattern" = Return pattern
    ∧ check_user_exists P0 (scripted healthy) username no_redis = (Return tt, w1)
    ∧ gists_for_user P0 (scripted healthy) username w1 = (Return listing, w2)
    ∧ py_iter listing = Return gists
    ∧ scanned P0 (scripted healthy) username pattern gists w2 urls
        (after_requests no_redis healthy_requests)
    ∧ success_body octocat (JStr "foo")
        ["https://gist.github.com/octocat/d2"; "https://gist.github.com/octocat/d3"]
      = success_body username pattern urls.
Proof.
  apply (search_success P0 (scripted healthy) (request octocat (JStr "foo"))
           (success_body octocat (JStr "foo")
              ["https://gist.github.com/octocat/d2";
               "https://gist.github.com/octocat/d3"])
           no_redis (after_requests no_redis healthy_requests)).
  vm_compute. reflexivity.
Defined.


(** C3.  What the code does when a fetch fails.  A gist that cannot be
    reached, here the third one after the second has matched, ends the
    search with the answer 500 of the last [except] clause, "Your request
    could not be processed", not with that of [ExternalError]; the answer
    has no list of matches.  A raw url answered with 404 is no failure at all:
    the text of the error page is taken for the content of the file,
    stored in redis under the url, and searched; the search for 404
    answers 200 and reports the gist. *)
Theorem search_fetch_failures :
  (search P0 (scripted d3_unreachable) (request octocat (JStr "foo")) no_redis).1
    = Return (error_body 500 "Your request could not be processed", 500)
  ∧ (search P0 (scripted raw_gone) (request octocat (JStr "404")) empty_redis).1
    = Return (success_body octocat (JStr "404")
                ["https://gist.github.com/octocat/d3"], 200)
  ∧ (redis_client
       (search P0 (scripted raw_gone) (request octocat (JStr "404")) empty_redis).2
     ≫= (.!! raw "big.txt"))
    = Some "404: Not Found".
Proof. split; [|split]; vm_compute; reflexivity. Qed.

(** * The further properties on the scenarios *)

(** The decoder of the examples decodes what it prints from a decoded
    text. *)
Lemma loads_dumps documents s j :
  loads documents s = Some j → loads documents (dumps j) = Some j.
Proof.
  unfold loads. intros H. pose proof H as H'.
  apply find_some in H' as [_ Heq]. apply String.eqb_eq in Heq.
  by rewrite Heq.
Qed.

(** A full first page, and a second page answered with 500. *)
Lemma gists_for_user_page_failure_witness :
  gists_for_user P0 (scripted second_page_500) octocat no_redis =
    (Raise ExternalError,
     after_requests no_redis (page_urls P0 octocat (S (length [full_items])))).
Proof.
  apply (gists_for_user_page_failure P0 (scripted second_page_500) octocat
           [full_items] no_redis).
  - simpl. lia.
  - intros [|i] items; simpl; [|done]. intros [= <-]. split; [|reflexivity].
    intros history. exists (ok full_page).
    split; [reflexivity|]. split; [reflexivity|]. vm_compute. reflexivity.
  - intros history. vm_compute. left. reflexivity.
Defined.

(** A user without gists. *)
Lemma search_no_gists_witness :
  search P1 (scripted no_gists) (request octocat (JStr "foo")) no_redis
  = (Return (success_body octocat (JStr "foo") [], 200),
     after_requests no_redis [user_url P1 octocat; gists_url P1 octocat 1]).
Proof.
  apply (search_no_gists P1 (scripted no_gists) (request octocat (JStr "foo"))
           octocat (JStr "foo") (ok profile) no_redis).
  - reflexivity.
  - reflexivity.
  - simpl. lia.
  - intros history. exists (ok (JArr [])).
    split; [reflexivity|]. split; [reflexivity|]. vm_compute. reflexivity.
Defined.

(** The listing fails at its second page. *)
Lemma search_listing_failure_witness :
  search P0 (scripted second_page_500) (request octocat (JStr "foo")) no_redis
  = (Return (error_body 500 "Information could not be retrieved from Github", 500),
     after_requests no_redis
       (user_url P0 octocat :: page_urls P0 octocat (S (length [full_items])))).
Proof.
  apply (search_listing_failure P0 (scripted second_page_500)
           (request octocat (JStr "foo")) octocat (JStr "foo") (ok profile)
           [full_items] no_redis).
  - reflexivity.
  - reflexivity.
  - simpl. lia.
  - simpl. lia.
  - intros [|i] items; simpl; [|done]. intros [= <-]. split; [|reflexivity].
    intros history. exists (ok full_page).
    split; [reflexivity|]. split; [reflexivity|]. vm_compute. reflexivity.
  - intros history. vm_compute. left. reflexivity.
Defined.

(** Nothing can be reached. *)
Lemma search_user_unreachable_witness :
  search P0 (scripted offline) (request octocat (JStr "foo")) no_redis
  = (Return (error_body 500 "Your request could not be processed", 500),
     after_requests no_redis [user_url P0 octocat]).
Proof.
  apply (search_user_unreachable P0 (scripted offline)
           (request octocat (JStr "foo")) octocat (JStr "foo") no_redis);
    reflexivity.
Defined.

(** The first gist, twice, from an empty store. *)
Lemma fetch_single_gist_twice_witness :
  ∃ w1,
    fetch_single_gist P0 (scripted healthy) (gist_url "d1") empty_redis
      = (Return d1, w1)
    ∧ redis_client w1 = Some (<[gist_url "d1":=json_dumps P0 d1]> ∅)
    ∧ sent w1 = sent empty_redis ++ [gist_url "d1"]
    ∧ fetch_single_gist P0 (scripted healthy) (gist_url "d1") w1 = (Return d1, w1).
Proof.
  apply (fetch_single_gist_twice P0 (scripted healthy) (gist_url "d1") ∅
           (ok d1) d1 empty_redis); reflexivity.
Defined.

(** The first gist answered with HTML. *)
Lemma fetch_single_gist_not_json_witness :
  fetch_single_gist P0 (scripted d1_garbled) (gist_url "d1") empty_redis
    = (Raise JSONDecodeError, after_requests empty_redis [gist_url "d1"])
  ∧ redis_client (after_requests empty_redis [gist_url "d1"])
    = redis_client empty_redis.
Proof.
  apply (fetch_single_gist_not_json P0 (scripted d1_garbled) (gist_url "d1")
           (mkResponse 200 "<html>") empty_redis).
  - intros store [= <-]. reflexivity.
  - reflexivity.
  - reflexivity.
Defined.

(** A raw url that cannot be reached. *)
Lemma fetch_file_content_raises_witness :
  RequestException = RequestException
  ∧ scripted healthy (sent no_redis) (raw "gone.txt") = None
  ∧ after_requests no_redis [raw "gone.txt"]
    = after_requests no_redis [raw "gone.txt"].
Proof.
  apply (fetch_file_content_raises (scripted healthy) (raw "gone.txt")
           RequestException no_redis (after_requests no_redis [raw "gone.txt"])).
  reflexivity.
Defined.

(** The answer 400 of the scenario in which the user resource answers 404. *)
Lemma search_error_causes_witness :
  (400 = 400 →
     error_body 400 "Invalid username" = error_body 400 "Invalid username"
     ∧ after_requests no_redis [user_url P0 octocat]
       = after_requests no_redis [user_url P0 octocat]
     ∧ ∃ r, scripted user_404 (sent no_redis) (user_url P0 octocat) = Some r
            ∧ status_code r = 404)
  ∧ (error_body 400 "Invalid username"
     = error_body 500 "Information could not be retrieved from Github" →
     ∃ w1, check_user_exists P0 (scripted user_404) octocat no_redis = (Return tt, w1)
           ∧ gists_for_user P0 (scripted user_404) octocat w1
             = (Raise ExternalError, after_requests no_redis [user_url P0 octocat])).
Proof.
  apply (search_error_causes P0 (scripted user_404) (request octocat (JStr "foo"))
           octocat (JStr "foo") (error_body 400 "Invalid username") 400
           no_redis (after_requests no_redis [user_url P0 octocat]));
    reflexivity.
Defined.

(** The file of [d1] is not truncated. *)
Lemma files_loop_inline_witness :
  (files_loop P0 (scripted healthy) octocat (JStr "foo") d1 ["notes.txt"] []
     no_redis).2 = no_redis.
Proof.
  apply (files_loop_inline P0 (scripted healthy) octocat (JStr "foo") d1
           ["notes.txt"] [] no_redis).
  constructor; [|constructor].
  exists (JObj [("notes.txt", file false (raw "notes.txt") "a foo")]),
    (file false (raw "notes.txt") "a foo"), (JBool false).
  repeat split; reflexivity.
Defined.

(** WITH_REDIS=0 turns the cache on. *)
Lemma module_world_cache_witness :
  fetch_file_content (scripted offline) (raw "big.txt")
    (module_world environ_0 holds_big)
  = (Return "foobar", module_world environ_0 holds_big).
Proof.
  apply (proj1 (module_world_cache (scripted offline) environ_0 holds_big
                  (raw "big.txt") "foobar" (lookup_singleton_eq _ _)) "0").
  - apply lookup_singleton_eq.
  - discriminate.
Defined.

(** The second item of the listing has no url: the first gist has matched,
    the third is not fetched. *)
Lemma search_item_without_url_witness :
  search P2 (scripted with_bad_item) (request octocat (JStr "foo")) no_redis
  = (Return (error_body 500 "Your request could not be processed", 500),
     after_requests no_redis
       [user_url P2 octocat; gists_url P2 octocat 1; gist_url "d2"]).
Proof.
  assert (gists_loop P2 (scripted with_bad_item) octocat (JStr "foo")
            [stub "d2"] []
            (after_requests no_redis [user_url P2 octocat; gists_url P2 octocat 1])
          = (Return ["https://gist.github.com/octocat/d2"],
             after_requests no_redis
               [user_url P2 octocat; gists_url P2 octocat 1; gist_url "d2"]))
    as Hloop by (vm_compute; reflexivity).
  apply gists_loop_scanned in Hloop as (urls & Heq & Hscan).
  simpl in Heq. subst urls.
  apply (search_item_without_url P2 (scripted with_bad_item)
           (request octocat (JStr "foo")) octocat (JStr "foo") listing_bad
           [stub "d2"] bad_item [stub "d3"]
           ["https://gist.github.com/octocat/d2"] no_redis
           (after_requests no_redis [user_url P2 octocat])
           (after_requests no_redis [user_url P2 octocat; gists_url P2 octocat 1])).
  - vm_compute. reflexivity.
  - vm_compute. reflexivity.
  - vm_compute. reflexivity.
  - vm_compute. reflexivity.
  - exact Hscan.
  - reflexivity.
Defined.

(** The three gists, from the scan to the answer. *)
Lemma search_complete_witness :
  search P0 (scripted healthy) (request octocat (JStr "foo")) no_redis
  = (Return (success_body octocat (JStr "foo")
               ["https://gist.github.com/octocat/d2";
                "https://gist.github.com/octocat/d3"], 200),
     after_requests no_redis healthy_requests).
Proof.
  assert (gists_loop P0 (scripted healthy) octocat (JStr "foo") listed []
            (after_requests no_redis [user_url P0 octocat; gists_url P0 octocat 1])
          = (Return ["https://gist.github.com/octocat/d2";
                     "https://gist.github.com/octocat/d3"],
             after_requests no_redis healthy_requests))
    as Hloop by (vm_compute; reflexivity).
  apply gists_loop_scanned in Hloop as (urls & Heq & Hscan).
  simpl in Heq. subst urls.
  apply (search_complete P0 (scripted healthy) (request octocat (JStr "foo"))
           octocat (JStr "foo") listing listed
           ["https://gist.github.com/octocat/d2";
            "https://gist.github.com/octocat/d3"] no_redis
           (after_requests no_redis [user_url P0 octocat])
           (after_requests no_redis [user_url P0 octocat; gists_url P0 octocat 1])).
  - vm_compute. reflexivity.
  - vm_compute. reflexivity.
  - vm_compute. reflexivity.
  - reflexivity.
  - exact Hscan.
Defined.

(** The scan of the three gists, repeated from the store it has filled. *)
Lemma gists_loop_from_store_witness :
  gists_loop P0 (scripted healthy) octocat (JStr "foo") listed [] after_scan
  = (Return ["https://gist.github.com/octocat/d2";
             "https://gist.github.com/octocat/d3"], after_scan).
Proof.
  assert (redis_client after_scan = Some scan_store) as Hstore.
  { destruct (grows_redis empty_redis after_scan ∅
                (Grows_gists_loop P0 (scripted healthy) octocat (JStr "foo")
                   listed [] empty_redis) eq_refl) as (store' & Hc & _).
    unfold scan_store. by rewrite Hc. }
  apply (gists_loop_from_store P0 (scripted healthy) octocat (JStr "foo") listed
           ["https://gist.github.com/octocat/d2";
            "https://gist.github.com/octocat/d3"]
           empty_redis after_scan scan_store after_scan scan_store).
  - intros s j. apply loads_dumps.
  - unfold after_scan.
    rewrite (surjective_pairing
               (gists_loop P0 (scripted healthy) octocat (JStr "foo") listed []
                  empty_redis)) at 1.
    f_equal; vm_compute; reflexivity.
  - exact Hstore.
  - exact Hstore.
  - done.
Defined.

(** C4.  What the existence check does with an answer that is not 404 and
    with a request that fails.  The status 404 is the only one it looks at:
    a user resource answered with 500 passes the check, and the search goes
    on as if the user had been confirmed, here to the answer 200 with two
    matches.  A request that cannot be carried out is not caught: the
    exception of the client propagates, and the search answers 500 with
    the message of the last [except] clause, not with that of
    [ExternalError].  Only the answer 404 is handled as the claim says:
    [UserNotFound], answer 400 with "Invalid username". *)
Theorem check_user_exists_failures :
  check_user_exists P0 (scripted user_500_healthy) octocat no_redis
    = (Return tt, after_requests no_redis [user_url P0 octocat])
  ∧ search P0 (scripted user_500_healthy) (request octocat (JStr "foo")) no_redis
    = (Return (success_body octocat (JStr "foo")
                 ["https://gist.github.com/octocat/d2";
                  "https://gist.github.com/octocat/d3"], 200),
       after_requests no_redis healthy_requests)
  ∧ check_user_exists P0 (scripted offline) octocat no_redis
    = (Raise RequestException, after_requests no_redis [user_url P0 octocat])
  ∧ search P0 (scripted offline) (request octocat (JStr "foo")) no_redis
    = (Return (error_body 500 "Your request could not be processed", 500),
       after_requests no_redis [user_url P0 octocat])
  ∧ check_user_exists P0 (scripted user_404) octocat no_redis
    = (Raise UserNotFound, after_requests no_redis [user_url P0 octocat])
  ∧ search P0 (scripted user_404) (request octocat (JStr "foo")) no_redis
    = (Return (error_body 400 "Invalid username", 400),
       after_requests no_redis [user_url P0 octocat]).
Proof. repeat split; vm_compute; reflexivity. Qed.
